(** * Plant disease prediction: the prediction stand-in and its formatter

    A shallow embedding of [Back End/utilities.py] and [Back End/app.py].

    Python values are modelled as follows.
    - [str] is a Rocq [string] read as a sequence of ASCII code points
      ([PyStr.isascii]); on them the case maps and the whitespace test are
      CPython's.  The characters above 127 stand for no code point of
      Unicode: the model treats them as caseless and not whitespace, and a
      statement whose truth in CPython depends on the case of a character
      assumes [PyStr.isascii].
    - [int] is [Z]; the built-in [hash] of a [str] belongs to the process
      (field [hash] of [Runtime]); for CPython 3.11 and later it is the
      SipHash-1-3 of module [SipHash], keyed once per process.
    - NumPy's [float64] is Rocq's primitive binary64 [float].
    - an exception is the [Raise] outcome of the [Py] monad; [try]/[except]
      is [try_except].
    - the file system is a finite map from paths to files; a file records
      what [os.path.getsize] and Pillow's [Image.open] see in it. *)

From Stdlib Require Import ZArith Ascii String List Bool Lia.
From Stdlib Require Import PrimFloat Uint63.
From stdpp Require Import gmap strings.
Import ListNotations.

Local Open Scope Z_scope.

(** ** Python strings *)

Module PyStr.

Definition ord (c : ascii) : Z := Z.of_N (N_of_ascii c).
Definition chr (z : Z) : ascii := ascii_of_N (Z.to_N z).

(** [str.isspace] on one ASCII character: TAB, LF, VT, FF, CR, the four
    separators 0x1c to 0x1f, and the space. *)
Definition isspace (c : ascii) : bool :=
  let n := ord c in
  ((9 <=? n) && (n <=? 13)) || ((28 <=? n) && (n <=? 31)) || (n =? 32).

(** [c.lower()] on one ASCII character. *)
Definition lower_char (c : ascii) : ascii :=
  let n := ord c in
  if (65 <=? n) && (n <=? 90) then chr (n + 32) else c.

(** [c.upper()] on one ASCII character, which is also its title case. *)
Definition upper_char (c : ascii) : ascii :=
  let n := ord c in
  if (97 <=? n) && (n <=? 122) then chr (n - 32) else c.

(** [s.lower()] *)
Fixpoint lower (s : string) : string :=
  match s with
  | EmptyString => EmptyString
  | String c s' => String (lower_char c) (lower s')
  end.

(** [s.capitalize()] on an ASCII string: the first character upper-cased,
    the rest lower-cased. *)
Definition capitalize (s : string) : string :=
  match s with
  | EmptyString => EmptyString
  | String c s' => String (upper_char c) (lower s')
  end.

(** [s.startswith(p)] *)
Fixpoint startswith (p s : string) : bool :=
  match p, s with
  | EmptyString, _ => true
  | String a p', String b s' => Ascii.eqb a b && startswith p' s'
  | String _ _, EmptyString => false
  end.

(** [sub in s] *)
Fixpoint contains (sub s : string) : bool :=
  startswith sub s ||
  match s with
  | EmptyString => false
  | String _ s' => contains sub s'
  end.

(** [c in s] for a single character [c]. *)
Fixpoint has_char (c : ascii) (s : string) : bool :=
  match s with
  | EmptyString => false
  | String a s' => Ascii.eqb c a || has_char c s'
  end.

(** [s.replace(old, new)] for a non-empty [old]: the occurrences are
    found scanning from the left and do not overlap.  [skip] counts the
    characters of a matched occurrence that are still to be dropped. *)
Fixpoint replace_from (skip : nat) (old new s : string) : string :=
  match s with
  | EmptyString => EmptyString
  | String c s' =>
      match skip with
      | S k => replace_from k old new s'
      | O =>
          if startswith old s
          then new +:+ replace_from (Nat.pred (String.length old)) old new s'
          else String c (replace_from O old new s')
      end
  end.

Definition replace (old new s : string) : string := replace_from O old new s.

(** [s.split()]: the maximal runs of characters that are not whitespace. *)
Fixpoint split (s : string) : list string :=
  match s with
  | EmptyString => []
  | String c s' =>
      if isspace c then split s'
      else
        match s' with
        | EmptyString => [String c EmptyString]
        | String c' _ =>
            if isspace c' then String c EmptyString :: split s'
            else
              match split s' with
              | w :: ws => String c w :: ws
              | [] => [String c EmptyString]
              end
        end
  end.

(** [sep.join(ws)] *)
Fixpoint join (sep : string) (ws : list string) : string :=
  match ws with
  | [] => EmptyString
  | [w] => w
  | w :: ws' => w +:+ sep +:+ join sep ws'
  end.

(** The part of [s] after its last [c], and whether [c] occurs at all:
    [s.rsplit(c, 1)[1]] when it does. *)
Fixpoint after_last (c : ascii) (s : string) : option string :=
  match s with
  | EmptyString => None
  | String a s' =>
      match after_last c s' with
      | Some t => Some t
      | None => if Ascii.eqb a c then Some s' else None
      end
  end.

(** [os.path.basename(p)] on a POSIX path: what follows the last slash. *)
Definition basename (p : string) : string :=
  match after_last "/"%char p with
  | Some t => t
  | None => p
  end.

(** [str(n)] for a non-negative [int]: its decimal digits. *)
Fixpoint digits (fuel : nat) (n : Z) (acc : string) : string :=
  match fuel with
  | O => acc
  | S f =>
      let acc' := String (chr (48 + n mod 10)) acc in
      if n <? 10 then acc' else digits f (n / 10) acc'
  end.

Definition str_of_int (n : Z) : string :=
  if n <? 0 then String "-"%char (digits (Z.to_nat (- n)) (- n) EmptyString)
  else digits (S (Z.to_nat n)) n EmptyString.

(** The bytes CPython hashes for a [str] of one-byte code points. *)
Fixpoint bytes (s : string) : list Z :=
  match s with
  | EmptyString => []
  | String c s' => ord c :: bytes s'
  end.

(** [s.isascii()] *)
Fixpoint isascii (s : string) : bool :=
  match s with
  | EmptyString => true
  | String c s' => (ord c <? 128) && isascii s'
  end.

Definition hex_digit (n : Z) : ascii :=
  if n <? 10 then chr (48 + n) else chr (87 + n).

Definition backslash : ascii := chr 92.
Definition double_quote : ascii := chr 34.

(** The characters of [repr(s)] between the quotes, for an ASCII string
    quoted with [quote]. *)
Fixpoint repr_body (quote : ascii) (s : string) : string :=
  match s with
  | EmptyString => EmptyString
  | String c s' =>
      let n := ord c in
      let rest := repr_body quote s' in
      if Ascii.eqb c quote || (n =? 92) then String backslash (String c rest)
      else if n =? 9 then String backslash (String "t"%char rest)
      else if n =? 10 then String backslash (String "n"%char rest)
      else if n =? 13 then String backslash (String "r"%char rest)
      else if (n <? 32) || (n =? 127)
      then String backslash
             (String "x"%char
                (String (hex_digit (n / 16)) (String (hex_digit (n mod 16)) rest)))
      else String c rest
  end.

(** [repr(s)] of an ASCII string: in single quotes, or in double quotes
    when [s] has a single quote and no double quote. *)
Definition repr (s : string) : string :=
  let quote := if has_char "'"%char s && negb (has_char double_quote s)
               then double_quote else "'"%char in
  String quote (repr_body quote s +:+ String quote EmptyString).

End PyStr.

(** ** Exceptions *)

(** An exception: the name of its class and [str(e)]. *)
Record exn : Type := Exception { exn_type : string; exn_msg : string }.

Inductive Py (A : Type) : Type :=
| Return (a : A)
| Raise (e : exn).

Arguments Return {A} a.
Arguments Raise {A} e.

#[global] Instance Py_ret : MRet Py := fun A a => Return a.

#[global] Instance Py_bind : MBind Py := fun A B k m =>
  match m with
  | Return a => k a
  | Raise e => Raise e
  end.

(** [try: body  except Exception: return fallback] *)
Definition try_except {A : Type} (body : Py A) (handler : exn -> A) : A :=
  match body with
  | Return a => a
  | Raise e => handler e
  end.

(** ** The built-in [hash] of CPython *)

Module SipHash.

Definition mask64 : Z := 2 ^ 64 - 1.
Definition wrap (x : Z) : Z := Z.land x mask64.
Definition add64 (a b : Z) : Z := wrap (a + b).
Definition rotl (x : Z) (b : Z) : Z :=
  wrap (Z.lor (Z.shiftl x b) (Z.shiftr x (64 - b))).

Record state := St { v0 : Z; v1 : Z; v2 : Z; v3 : Z }.

(** [HALF_ROUND(a,b,c,d,s,t)] of [pyhash.c], returning the new
    [(a,b,c,d)]. *)
Definition half_round (a b c d s t : Z) : Z * Z * Z * Z :=
  let a := add64 a b in
  let c := add64 c d in
  let b := Z.lxor (rotl b s) a in
  let d := Z.lxor (rotl d t) c in
  let a := rotl a 32 in
  (a, b, c, d).

(** [SINGLE_ROUND(v0,v1,v2,v3)] *)
Definition single_round (st : state) : state :=
  let '(a, b, c, d) := half_round (v0 st) (v1 st) (v2 st) (v3 st) 13 16 in
  let '(c, b, a, d) := half_round c b a d 17 21 in
  St a b c d.

Definition absorb (st : state) (m : Z) : state :=
  let st := St (v0 st) (v1 st) (v2 st) (Z.lxor (v3 st) m) in
  let st := single_round st in
  St (Z.lxor (v0 st) m) (v1 st) (v2 st) (v3 st).

(** Little-endian value of at most eight bytes. *)
Fixpoint le_word (bs : list Z) : Z :=
  match bs with
  | [] => 0
  | b :: bs' => Z.lor b (Z.shiftl (le_word bs') 8)
  end.

(** The main loop over whole eight-byte words, then the tail word that
    carries the length in its top byte. *)
Fixpoint blocks (fuel : nat) (st : state) (bs : list Z) (len : Z) : state :=
  match fuel with
  | O => st
  | S f =>
      if (8 <=? Z.of_nat (List.length bs))
      then blocks f (absorb st (le_word (firstn 8 bs))) (skipn 8 bs) len
      else absorb st (Z.lor (wrap (Z.shiftl len 56)) (le_word bs))
  end.

Definition siphash13 (k0 k1 : Z) (bs : list Z) : Z :=
  let st := St (Z.lxor k0 0x736f6d6570736575)
               (Z.lxor k1 0x646f72616e646f6d)
               (Z.lxor k0 0x6c7967656e657261)
               (Z.lxor k1 0x7465646279746573) in
  let len := Z.of_nat (List.length bs) in
  let st := blocks (S (List.length bs)) st bs len in
  let st := St (v0 st) (v1 st) (Z.lxor (v2 st) 0xff) (v3 st) in
  let st := single_round (single_round (single_round st)) in
  Z.lxor (Z.lxor (v0 st) (v1 st)) (Z.lxor (v2 st) (v3 st)).

(** The 64-bit result read as a signed [Py_hash_t]. *)
Definition signed64 (x : Z) : Z := if x <? 2 ^ 63 then x else x - 2 ^ 64.

(** [_Py_HashBytes]: the empty input hashes to 0, and -1 is reserved. *)
Definition hash_bytes (k0 k1 : Z) (bs : list Z) : Z :=
  match bs with
  | [] => 0
  | _ => let x := signed64 (siphash13 k0 k1 bs) in
         if x =? -1 then -2 else x
  end.

(** [lcg_urandom] of [bootstrap_hash.c]: the bytes of the secret that
    a non-zero [PYTHONHASHSEED] expands to. *)
Fixpoint lcg_urandom (n : nat) (x : Z) : list Z :=
  match n with
  | O => []
  | S n' =>
      let x := Z.land (x * 214013 + 2531011) (2 ^ 32 - 1) in
      Z.land (Z.shiftr x 16) 255 :: lcg_urandom n' x
  end.

(** The SipHash key [(k0, k1)] of a process started with
    [PYTHONHASHSEED=seed]; seed 0 switches the randomisation off. *)
Definition key_of_seed (seed : Z) : Z * Z :=
  if seed =? 0 then (0, 0)
  else
    let bs := lcg_urandom 16 seed in
    (le_word (firstn 8 bs), le_word (skipn 8 bs)).

Definition str_hash (seed : Z) (s : string) : Z :=
  let '(k0, k1) := key_of_seed seed in
  hash_bytes k0 k1 (PyStr.bytes s).

End SipHash.

(** ** Pillow and NumPy, as far as the code uses them *)

(** One pixel of an RGB image: three [uint8] channel values. *)
Definition Pixel : Type := Z * Z * Z.

Definition red (p : Pixel) : Z := fst (fst p).
Definition green (p : Pixel) : Z := snd (fst p).
Definition blue (p : Pixel) : Z := snd p.

Module Image.

(** A Pillow image object.  [filename] and [format] are the attributes of
    that name, present on the objects [Image.open] returns; [pixels] is
    what loading the pixel data gives, which Pillow does lazily and which
    fails on truncated or corrupt data. *)
Record t : Type := mk {
  filename : option string;
  format : option string;
  size : Z * Z;
  pixels : Py (list Pixel)
}.

(** [img.convert('RGB')]: loads the pixel data and returns a fresh image
    object of the same size, which carries neither the file name nor the
    format of the file it came from. *)
Definition convert (img : t) : Py t :=
  px ← pixels img;
  mret (mk None None (size img) (Return px)).

End Image.

(** What a stored file is to the code: its length in bytes, and the image
    Pillow identifies in it, if any. *)
Record File : Type := {
  st_size : Z;
  image : option (string * (Z * Z) * Py (list Pixel))
}.

(** [float64] statistics of the three channels. *)
Definition Stats : Type := float * float * float.

(** The process the code runs in: which optional libraries were imported,
    the built-in [hash] (keyed per process), the parts of NumPy that only
    feed that hash, whether an upload can be written to the image folder
    and, when it cannot, the part-written file the failed [img.save]
    leaves at its destination, if any. *)
Record Runtime : Type := {
  HAS_PIL : bool;
  HAS_NUMPY : bool;
  hash : string -> Z;
  np_std : list Pixel -> Py Stats;
  np_str : Stats -> string;
  cwd : string;
  writable : bool;
  partial_write : option File
}.

Section Externals.

Context (rt : Runtime).

(** [os.path.exists(path)] *)
Definition os_path_exists (fs : gmap string File) (path : string) : bool :=
  bool_decide (is_Some (fs !! path)).

(** [os.path.getsize(path)] *)
Definition os_path_getsize (fs : gmap string File) (path : string) : Py Z :=
  match fs !! path with
  | Some f => Return (st_size f)
  | None =>
      Raise (Exception "FileNotFoundError"
               ("[Errno 2] No such file or directory: " +:+ PyStr.repr path))
  end.

(** [Image.open(path)].  The name [Image] is unbound when the import of
    Pillow failed. *)
Definition Image_open (fs : gmap string File) (path : string) : Py Image.t :=
  if negb (HAS_PIL rt)
  then Raise (Exception "NameError" "name 'Image' is not defined")
  else
    match fs !! path with
    | None =>
        Raise (Exception "FileNotFoundError"
                 ("[Errno 2] No such file or directory: " +:+ PyStr.repr path))
    | Some f =>
        match image f with
        | None =>
            Raise (Exception "UnidentifiedImageError"
                     ("cannot identify image file " +:+ PyStr.repr path))
        | Some (fmt, dims, px) =>
            Return (Image.mk (Some path) (Some fmt) dims px)
        end
    end.

(** [np.array(img)] *)
Definition np_array (img : Image.t) : Py (list Pixel) := Image.pixels img.

Definition float_of_Z (z : Z) : float := PrimFloat.of_uint63 (Uint63.of_Z z).

Definition channel_sum (ch : Pixel -> Z) (arr : list Pixel) : Z :=
  fold_right Z.add 0 (map ch arr).

(** [np.mean(img_array, axis=(0, 1))] on a [uint8] array: each channel is
    summed in [float64] (exactly, the sums being far below 2^53) and
    divided by the number of pixels. *)
Definition np_mean (arr : list Pixel) : Stats :=
  let n := float_of_Z (Z.of_nat (length arr)) in
  (PrimFloat.div (float_of_Z (channel_sum red arr)) n,
   PrimFloat.div (float_of_Z (channel_sum green arr)) n,
   PrimFloat.div (float_of_Z (channel_sum blue arr)) n).

(** [xs[i]] on a list *)
Definition getitem (xs : list string) (i : Z) : Py string :=
  let j := if i <? 0 then i + Z.of_nat (length xs) else i in
  if j <? 0 then Raise (Exception "IndexError" "list index out of range")
  else
    match xs !! Z.to_nat j with
    | Some x => Return x
    | None => Raise (Exception "IndexError" "list index out of range")
    end.

(** [a > b] on [float64] *)
Definition float_gt (a b : float) : bool := PrimFloat.ltb b a.

End Externals.

(** The literal [1.2] *)
Definition f1_2 : float := 0x1.3333333333333p+0%float.

(** ** utilities.py *)

(** The list [classes] of [makePrediction]. *)
Definition classes : list string := [
  "Apple___Apple_scab";
  "Apple___Black_rot";
  "Apple___Cedar_apple_rust";
  "Apple___healthy";
  "Blueberry___healthy";
  "Cherry_(including_sour)___Powdery_mildew";
  "Cherry_(including_sour)___healthy";
  "Corn_(maize)___Cercospora_leaf_spot Gray_leaf_spot";
  "Corn_(maize)___Common_rust_";
  "Corn_(maize)___Northern_Leaf_Blight";
  "Corn_(maize)___healthy";
  "Grape___Black_rot";
  "Grape___Esca_(Black_Measles)";
  "Grape___Leaf_blight_(Isariopsis_Leaf_Spot)";
  "Grape___healthy";
  "Orange___Haunglongbing_(Citrus_greening)";
  "Peach___Bacterial_spot";
  "Peach___healthy";
  "Pepper,_bell___Bacterial_spot";
  "Pepper,_bell___healthy";
  "Potato___Early_blight";
  "Potato___Late_blight";
  "Potato___healthy";
  "Raspberry___healthy";
  "Soybean___healthy";
  "Squash___Powdery_mildew";
  "Strawberry___Leaf_scorch";
  "Strawberry___healthy";
  "Tomato___Bacterial_spot";
  "Tomato___Early_blight";
  "Tomato___Late_blight";
  "Tomato___Leaf_Mold";
  "Tomato___Septoria_leaf_spot";
  "Tomato___Spider_mites Two-spotted_spider_mite";
  "Tomato___Target_Spot";
  "Tomato___Tomato_Yellow_Leaf_Curl_Virus";
  "Tomato___Tomato_mosaic_virus";
  "Tomato___healthy"
].

(** ['healthy' in c.lower()] *)
Definition is_healthy (c : string) : bool :=
  PyStr.contains "healthy" (PyStr.lower c).

(** [[c for c in classes if 'healthy' in c.lower()]] *)
Definition healthy_of (cls : list string) : list string :=
  List.filter is_healthy cls.

(** [[c for c in classes if 'healthy' not in c.lower()]] *)
Definition disease_of (cls : list string) : list string :=
  List.filter (fun c => negb (is_healthy c)) cls.

(** Truth value of a list *)
Definition nonempty {A : Type} (xs : list A) : bool :=
  match xs with [] => false | _ => true end.

Section Utilities.

Context (rt : Runtime).

(** The string the branch without NumPy hashes: [img.filename] when the
    object has that attribute, else [str(width * height)]. *)
Definition hash_key (img : Image.t) : string :=
  let '(width, height) := Image.size img in
  match Image.filename img with
  | Some name => name
  | None => PyStr.str_of_int (width * height)
  end.

(** The final lines of [mock_prediction]: a disease class, or the fallback
    when there is none. *)
Definition disease_or_fallback (cls : list string) (h : Z) : Py string :=
  let disease_classes := disease_of cls in
  if nonempty disease_classes then
    getitem disease_classes (h mod Z.of_nat (length disease_classes))
  else if nonempty cls then getitem cls 0
  else Return "Unknown".

(** The [try] block of [mock_prediction].  In either branch the test that
    selects the healthy classes and the test [if healthy_classes:] nested
    in it are one conjunction: when either fails, control reaches the
    disease classes. *)
Definition mock_prediction_body (img : Image.t) (cls : list string) : Py string :=
  let '(width, height) := Image.size img in
  if HAS_NUMPY rt then
    img_array ← np_array img;
    let mean_color := np_mean img_array in
    std_color ← np_std rt img_array;
    let '(m0, m1, m2) := mean_color in
    let healthy_classes := healthy_of cls in
    if float_gt m1 (PrimFloat.mul m0 f1_2) && float_gt m1 (PrimFloat.mul m2 f1_2)
       && nonempty healthy_classes
    then
      let index := Z.abs (hash rt (np_str rt mean_color))
                   mod Z.of_nat (length healthy_classes) in
      getitem healthy_classes index
    else
      disease_or_fallback cls
        (Z.abs (hash rt (np_str rt mean_color +:+ np_str rt std_color)))
  else
    let filename_hash := Z.abs (hash rt (hash_key img)) in
    let healthy_classes := healthy_of cls in
    if (filename_hash mod 4 =? 0) && nonempty healthy_classes
    then getitem healthy_classes (filename_hash mod Z.of_nat (length healthy_classes))
    else disease_or_fallback cls filename_hash.

Definition mock_prediction (img : Image.t) (cls : list string) : string :=
  try_except (mock_prediction_body img cls) (fun _ => "Tomato___healthy").

(** The inner [try] block of [makePrediction]: the loaded image, or the
    message of a failed dimension check. *)
Definition load_and_check (fs : gmap string File) (path : string)
  : Py (string + Image.t) :=
  img ← Image_open rt fs path;
  img ← Image.convert img;
  let '(width, height) := Image.size img in
  if (width <? 50) || (height <? 50)
  then Return (inl "Error: Image too small for analysis")
  else if (width >? 5000) || (height >? 5000)
  then Return (inl "Error: Image too large for analysis")
  else Return (inr img).

Definition makePrediction_body (fs : gmap string File) (path : string) : Py string :=
  if negb (os_path_exists fs path) then Return "Error: Image file not found"
  else if negb (HAS_PIL rt) then
    let filename := PyStr.basename path in
    let filename_hash := Z.abs (hash rt filename) in
    if nonempty classes
    then getitem classes (filename_hash mod Z.of_nat (length classes))
    else Return "Tomato___healthy"
  else
    match load_and_check fs path with
    | Raise _ => Return "Error: Invalid image format"
    | Return (inl message) => Return message
    | Return (inr img) => Return (mock_prediction img classes)
    end.

Definition makePrediction (fs : gmap string File) (path : string) : string :=
  try_except (makePrediction_body fs path) (fun _ => "Error: Analysis failed").

(** [validate_image(img_path)] *)
Definition validate_image (fs : gmap string File) (img_path : string)
  : bool * string :=
  try_except
    (if negb (os_path_exists fs img_path)
     then Return (false, "Image file not found")
     else
       file_size ← os_path_getsize fs img_path;
       if file_size >? 16 * 1024 * 1024
       then Return (false, "Image file too large (max 16MB)")
       else
         img ← Image_open rt fs img_path;
         if negb (bool_decide (Image.format img ∈
                    [Some "JPEG"; Some "PNG"; Some "GIF"]))
         then Return (false, "Unsupported image format")
         else
           let '(width, height) := Image.size img in
           if (width <? 50) || (height <? 50)
           then Return (false, "Image too small (minimum 50x50 pixels)")
           else if (width >? 5000) || (height >? 5000)
           then Return (false, "Image too large (maximum 5000x5000 pixels)")
           else Return (true, "Image is valid"))
    (fun e => (false, "Image validation failed: " +:+ exn_msg e)).

End Utilities.

(** ** app.py *)

Definition ALLOWED_EXTENSIONS : list string := ["png"; "jpg"; "jpeg"; "gif"].

(** [allowed_file(filename)] *)
Definition allowed_file (filename : string) : bool :=
  match PyStr.after_last "."%char filename with
  | Some ext => bool_decide (PyStr.lower ext ∈ ALLOWED_EXTENSIONS)
  | None => false
  end.

(** [generate_unique_filename(filename)]; [timestamp] and [unique_id] are
    what the clock and [uuid4] gave. *)
Definition generate_unique_filename (timestamp unique_id filename : string)
  : Py string :=
  match PyStr.after_last "."%char filename with
  | Some ext =>
      Return ("plant_" +:+ timestamp +:+ "_" +:+ unique_id +:+ "."
              +:+ PyStr.lower ext)
  | None => Raise (Exception "IndexError" "list index out of range")
  end.

(** [os.path.join(a, b)] on POSIX paths *)
Definition os_path_join (a b : string) : string :=
  if PyStr.startswith "/" b then b
  else if bool_decide (a = "") || bool_decide (PyStr.after_last "/"%char a = Some "")
  then a +:+ b
  else a +:+ "/" +:+ b.

Definition IMAGE_FOLDER (rt : Runtime) : string := os_path_join (cwd rt) "static".

(** The words [format_prediction] leaves in lower case. *)
Definition minor_words : list string :=
  ["and"; "or"; "the"; "of"; "in"; "on"; "at"; "to"; "for"; "with"].

(** The body of the loop of [format_prediction]. *)
Definition format_word (word : string) : string :=
  if bool_decide (PyStr.lower word ∈ minor_words)
  then PyStr.lower word
  else PyStr.capitalize word.

(** The words of the display string, before they are joined. *)
Definition format_words (prediction : string) : list string :=
  let formatted := PyStr.replace "_" " " (PyStr.replace "___" " - " prediction) in
  map format_word (PyStr.split formatted).

(** [format_prediction(prediction)]; [None] is Python's [None]. *)
Definition format_prediction (prediction : option string) : string :=
  match prediction with
  | None => "Unknown condition"
  | Some EmptyString => "Unknown condition"
  | Some p => PyStr.join " " (format_words p)
  end.

(** [calculate_mock_confidence(prediction)]; rounding an [int] to one
    decimal leaves it unchanged. *)
Definition calculate_mock_confidence (rt : Runtime) (prediction : string) : Z :=
  if PyStr.contains "healthy" (PyStr.lower prediction)
  then 85 + hash rt prediction mod 15
  else 70 + hash rt prediction mod 25.

(** The uploaded file [request.files['img']] of a request, if any. *)
Record Upload : Type := { up_filename : string; up_file : File }.

(** The JSON bodies [api_predict] answers with, and the HTTP status. *)
Inductive Response : Type :=
| Failure (error : string) (status : Z)
| Prediction (prediction original_prediction image_url : string) (confidence : Z).

(** The ['success'] field of a response. *)
Definition success (r : Response) : bool :=
  match r with
  | Failure _ _ => false
  | Prediction _ _ _ _ => true
  end.

Definition original_prediction_of (r : Response) : option string :=
  match r with
  | Failure _ _ => None
  | Prediction _ raw _ _ => Some raw
  end.

(** [app.config['MAX_CONTENT_LENGTH']] *)
Definition MAX_CONTENT_LENGTH : Z := 16 * 1024 * 1024.

(** A request: the length of its body, and the file sent under the name
    [img], if any. *)
Record Request : Type := {
  content_length : Z;
  files_img : option Upload
}.

(** [request.files]: reading the body raises [RequestEntityTooLarge] when
    it is longer than [MAX_CONTENT_LENGTH]. *)
Definition request_files (request : Request) : Py (option Upload) :=
  if content_length request >? MAX_CONTENT_LENGTH
  then Raise (Exception "RequestEntityTooLarge"
                "413 Request Entity Too Large: The data value transmitted exceeds the capacity limit.")
  else Return (files_img request).

Section Api.

Context (rt : Runtime).

(** [os.makedirs(IMAGE_FOLDER, exist_ok=True); img.save(img_loc)]: whether
    it raised, and the files it leaves.  When it raises, the destination
    holds what was written of the upload, if anything was.  The state is
    the map of the files; the directories [os.makedirs] may add are not
    part of it. *)
Definition save (fs : gmap string File) (img_loc : string) (f : File)
  : Py unit * gmap string File :=
  if writable rt then (Return tt, <[img_loc := f]> fs)
  else (Raise (Exception "OSError" "Read-only file system"),
        match partial_write rt with
        | Some part => <[img_loc := part]> fs
        | None => fs
        end).

(** The [except] clause of [api_predict], reached with the files as they
    are at that moment. *)
Definition api_failed (fs : gmap string File) : Response * gmap string File :=
  (Failure "Analysis failed" 500, fs).

(** [api_predict()]: the response, and the files it leaves. *)
Definition api_predict (timestamp unique_id : string)
    (fs : gmap string File) (request : Request)
  : Response * gmap string File :=
  match request_files request with
  | Raise _ => api_failed fs
  | Return None => (Failure "No file uploaded" 400, fs)
  | Return (Some img) =>
      if bool_decide (up_filename img = "")
      then (Failure "No file selected" 400, fs)
      else if negb (allowed_file (up_filename img))
      then (Failure "Invalid file type" 400, fs)
      else
        match generate_unique_filename timestamp unique_id (up_filename img) with
        | Raise _ => api_failed fs
        | Return unique_filename =>
            let img_loc := os_path_join (IMAGE_FOLDER rt) unique_filename in
            match save fs img_loc (up_file img) with
            | (Raise _, fs') => api_failed fs'
            | (Return _, fs') =>
                let prediction := makePrediction rt fs' img_loc in
                let formatted_prediction := format_prediction (Some prediction) in
                (Prediction formatted_prediction prediction unique_filename
                   (calculate_mock_confidence rt prediction), fs')
            end
        end
  end.

End Api.

(** ** A CPython process *)

(** The runtime of a CPython 3.11 process started with [PYTHONHASHSEED=seed]
    in which NumPy is not installed. *)
Definition cpython (seed : Z) (has_pil : bool) : Runtime := {|
  HAS_PIL := has_pil;
  HAS_NUMPY := false;
  hash := SipHash.str_hash seed;
  np_std := fun _ => Raise (Exception "NameError" "name 'np' is not defined");
  np_str := fun _ => EmptyString;
  cwd := "/app";
  writable := true;
  partial_write := None
|}.

(** ** Concrete files *)

Definition green_pixels : list Pixel := repeat (0, 255, 0) 2500.

Definition png (w h : Z) (px : list Pixel) : File :=
  {| st_size := 3 * w * h; image := Some ("PNG", (w, h), Return px) |}.

(** A 50 x 50 image of pure green. *)
Definition green_50 : File := png 50 50 green_pixels.

(** A 49 x 49 image. *)
Definition small_49 : File := png 49 49 (repeat (10, 200, 10) 2401).

(** A file of bytes in which Pillow identifies no image. *)
Definition text_file : File := {| st_size := 12; image := None |}.

(** A bitmap of twenty million bytes. *)
Definition big_bmp : File :=
  {| st_size := 20000000;
     image := Some ("BMP", (60, 60), Return (repeat (200, 30, 30) 3600)) |}.

(** A 50 x 50 image whose every pixel is (5, 6, 0): the green mean is
    exactly 1.2 times the red mean. *)
Definition olive_50 : File := png 50 50 (repeat (5, 6, 0) 2500).

Definition disk : gmap string File :=
  {[ "/app/static/leaf.jpg" := green_50;
     "/app/static/olive.png" := olive_50;
     "/app/static/small.png" := small_49;
     "/app/static/notes.jpg" := text_file;
     "/app/static/big.bmp" := big_bmp ]}.

(** A process with Pillow and NumPy in which [np.std] cannot allocate its
    [float64] temporaries; the rendering [np_str] is never reached. *)
Definition numpy_out_of_memory : Runtime := {|
  HAS_PIL := true;
  HAS_NUMPY := true;
  hash := SipHash.str_hash 0;
  np_std := fun _ => Raise (Exception "MemoryError" "Unable to allocate array");
  np_str := fun _ => EmptyString;
  cwd := "/app";
  writable := true;
  partial_write := None
|}.

(** A process with Pillow and NumPy, as it treats an image of one colour:
    the deviation of every channel is zero.  How NumPy prints an array is
    not modelled; the statements below hold for every rendering. *)
Definition numpy_uniform : Runtime := {|
  HAS_PIL := true;
  HAS_NUMPY := true;
  hash := SipHash.str_hash 0;
  np_std := fun _ => Return (0%float, 0%float, 0%float);
  np_str := fun _ => EmptyString;
  cwd := "/app";
  writable := true;
  partial_write := None
|}.

(** An upload of the 49 x 49 image under the name [leaf.png]. *)
Definition small_upload : Upload :=
  {| up_filename := "leaf.png"; up_file := small_49 |}.

(** The request that carries it. *)
Definition small_request : Request :=
  {| content_length := 8000; files_img := Some small_upload |}.

(** ** What a valid input is *)

(** The file at [path] exists, Pillow decodes it to [px], and its width
    and height lie between 50 and 5000. *)
Definition valid_input (fs : gmap string File) (path : string) : Prop :=
  ∃ f fmt w h px,
    fs !! path = Some f ∧ image f = Some (fmt, (w, h), Return px)
    ∧ 50 <= w <= 5000 ∧ 50 <= h <= 5000.

(** The reserved prefix of the sentinel strings. *)
Definition is_error (label : string) : bool := PyStr.startswith "Error:" label.

(** The two sentinels of the dimension check. *)
Definition DimensionOutOfRange (label : string) : Prop :=
  label = "Error: Image too small for analysis"
  ∨ label = "Error: Image too large for analysis".

(** The test of [mock_prediction] on the channel means: the green mean is
    greater than 1.2 times the red mean and than 1.2 times the blue mean,
    in [float64]. *)
Definition very_green (px : list Pixel) : bool :=
  let '(m0, m1, m2) := np_mean px in
  float_gt m1 (PrimFloat.mul m0 f1_2) && float_gt m1 (PrimFloat.mul m2 f1_2).

(** The image object [makePrediction] passes on: the converted copy. *)
Definition converted (w h : Z) (px : list Pixel) : Image.t :=
  Image.mk None None (w, h) (Return px).

(** The formats [validate_image] accepts. *)
Definition accepted_formats : list string := ["JPEG"; "PNG"; "GIF"].

(** [s.replace(old, new, 1)]: only the first occurrence is replaced. *)
Fixpoint replace_first (old new s : string) : string :=
  match s with
  | EmptyString => EmptyString
  | String c s' =>
      if PyStr.startswith old s
      then new +:+ String.substring (String.length old) (String.length s) s
      else String c (replace_first old new s')
  end.

(** The formatter as the specification words it: only the first [___] is
    turned into [" - "], the remaining underscores become spaces. *)
Definition format_prediction_first_only (prediction : option string) : string :=
  match prediction with
  | None => "Unknown condition"
  | Some EmptyString => "Unknown condition"
  | Some p =>
      let formatted := PyStr.replace "_" " " (replace_first "___" " - " p) in
      PyStr.join " " (map format_word (PyStr.split formatted))
  end.

(** [s] contains no underscore. *)
Definition no_underscore (s : string) : Prop := PyStr.has_char "_"%char s = false.

(** ** The rest of utilities.py and app.py *)

(** [actual_prediction(img_path, model)]: the model is not used, and the
    image [Image.open] returns is passed on, not converted, with an empty
    class list.  Without NumPy [mock_prediction] reads of it the size and
    the file name only.  With NumPy it reads the pixel array, whose shape
    depends on the mode of the image; [Image.t] records the pixels as RGB,
    so that branch is the code's for the files of mode RGB only. *)
Definition actual_prediction (rt : Runtime) (fs : gmap string File)
    (img_path : string) : string :=
  try_except
    (img ← Image_open rt fs img_path;
     mret (mock_prediction rt img []))
    (fun _ => "Error: Prediction failed").

Inductive Method : Type := GET | POST.

(** What the [/predict] view returns: the template [index.html] with its
    variables, or a redirect to an endpoint. *)
Inductive Page : Type :=
| Rendered (data : string) (image_loc original_prediction : option string)
| Redirected (endpoint : string).

(** The [except] clause of [predict], reached with the files as they are
    at that moment. *)
Definition predict_failed (fs : gmap string File)
  : Page * list (string * string) * gmap string File :=
  (Rendered "Analysis failed" None None,
   [("An error occurred during analysis. Please try again with a different image.",
     "error")],
   fs).

(** [predict()]: the page, the messages flashed (message, category), and
    the files it leaves. *)
Definition predict (rt : Runtime) (method : Method) (timestamp unique_id : string)
    (fs : gmap string File) (request : Request)
  : Page * list (string * string) * gmap string File :=
  match method with
  | GET => (Redirected "index", [], fs)
  | POST =>
      match request_files request with
      | Raise _ => predict_failed fs
      | Return None =>
          (Rendered "No file selected" None None,
           [("No file selected. Please choose an image to analyze.", "error")],
           fs)
      | Return (Some img) =>
          if bool_decide (up_filename img = "")
          then (Rendered "No file selected" None None,
                [("No file selected. Please choose an image to analyze.", "error")],
                fs)
          else if negb (allowed_file (up_filename img))
          then (Rendered "Invalid file type" None None,
                [("Invalid file type. Please upload a JPG, PNG, or GIF image.",
                  "error")],
                fs)
          else
            match generate_unique_filename timestamp unique_id (up_filename img) with
            | Raise _ => predict_failed fs
            | Return unique_filename =>
                let img_loc := os_path_join (IMAGE_FOLDER rt) unique_filename in
                match save rt fs img_loc (up_file img) with
                | (Raise _, fs') => predict_failed fs'
                | (Return _, fs') =>
                    let prediction := makePrediction rt fs' img_loc in
                    let formatted_prediction :=
                      format_prediction (Some prediction) in
                    (Rendered formatted_prediction (Some unique_filename)
                       (Some prediction),
                     [("Analysis completed successfully!", "success")],
                     fs')
                end
            end
      end
  end.

(** No character of [s] is whitespace. *)
Fixpoint no_space (s : string) : bool :=
  match s with
  | EmptyString => true
  | String c s' => negb (PyStr.isspace c) && no_space s'
  end.

(** A word as [str.split] produces them: not empty, without whitespace. *)
Definition is_word (w : string) : Prop := w ≠ "" ∧ no_space w = true.

(** The sentinels [makePrediction] can return. *)
Definition sentinels : list string :=
  ["Error: Image file not found";
   "Error: Invalid image format";
   "Error: Image too small for analysis";
   "Error: Image too large for analysis"].

(** The healthy classes [mock_prediction] can reach without NumPy. *)
Definition reachable_healthy : list string :=
  ["Apple___healthy"; "Grape___healthy"; "Raspberry___healthy"].

(** ** test_deployment.py *)

(** The literal [0.8] *)
Definition f0_8 : float := 0x1.999999999999ap-1%float.

(** The verdict of [test_deployment(base_url)].  Each of the five tests
    adds one to [tests_total] and, when its request returned what the test
    expects, one to [tests_passed]; [outcomes] says for each test whether
    it did.  The requests themselves are not modelled. *)
Definition test_deployment (outcomes : list bool) : bool :=
  let tests_total := Z.of_nat (length outcomes) in
  let tests_passed := Z.of_nat (length (List.filter id outcomes)) in
  if tests_passed =? tests_total then true
  else if PrimFloat.leb (PrimFloat.mul (float_of_Z tests_total) f0_8)
            (float_of_Z tests_passed)
  then true
  else false.

(** Case analysis on the eight bits of a character. *)
Ltac ascii_cases c :=
  destruct c as [[] [] [] [] [] [] [] []]; vm_compute; try done; auto.

(** * Properties *)

(** ** Selection from a list *)

Lemma getitem_mod (xs : list string) (h : Z) :
  xs ≠ [] →
  ∃ x, getitem xs (h mod Z.of_nat (length xs)) = Return x ∧ x ∈ xs.
Proof.
  intros Hne.
  assert (0 < Z.of_nat (length xs)) as Hlen by (destruct xs; [done | simpl; lia]).
  pose proof (Z.mod_pos_bound h _ Hlen) as [Hlo Hhi].
  unfold getitem.
  destruct (Z.ltb_spec (h mod Z.of_nat (length xs)) 0) as [? | _]; [lia |].
  destruct (Z.ltb_spec (h mod Z.of_nat (length xs)) 0) as [? | _]; [lia |].
  destruct (lookup_lt_is_Some_2 xs (Z.to_nat (h mod Z.of_nat (length xs))))
    as [x Hx]; [lia |].
  rewrite Hx. exists x. split; [done |]. by eapply list_elem_of_lookup_2.
Qed.

Lemma nonempty_spec {A : Type} (xs : list A) : nonempty xs = true ↔ xs ≠ [].
Proof. destruct xs; simpl; split; congruence. Qed.

Lemma healthy_of_subset (cls : list string) (x : string) :
  x ∈ healthy_of cls → x ∈ cls.
Proof.
  rewrite !list_elem_of_In. unfold healthy_of. rewrite filter_In. tauto.
Qed.

Lemma disease_of_subset (cls : list string) (x : string) :
  x ∈ disease_of cls → x ∈ cls.
Proof.
  rewrite !list_elem_of_In. unfold disease_of. rewrite filter_In. tauto.
Qed.

Lemma disease_or_fallback_sound (cls : list string) (h : Z) (x : string) :
  cls ≠ [] →
  disease_or_fallback cls h = Return x →
  x ∈ cls ∧ (disease_of cls ≠ [] → x ∈ disease_of cls).
Proof.
  intros Hcls. unfold disease_or_fallback.
  destruct (nonempty (disease_of cls)) eqn:Hd.
  - apply nonempty_spec in Hd.
    destruct (getitem_mod (disease_of cls) h Hd) as (y & -> & Hy).
    intros [= <-]. split; [by apply disease_of_subset | done].
  - assert (disease_of cls = []) as Hnil
      by (destruct (disease_of cls); [done | discriminate]).
    intros Hx. split; [| by rewrite Hnil].
    destruct cls as [| c cls']; [done |].
    simpl in Hx. injection Hx as <-. by left.
Qed.

(** A value the body of [mock_prediction] returns is drawn from the class
    list it was given. *)
Lemma mock_prediction_body_sound rt img (cls : list string) (x : string) :
  cls ≠ [] →
  mock_prediction_body rt img cls = Return x →
  x ∈ cls.
Proof.
  intros Hcls. unfold mock_prediction_body.
  destruct (Image.size img) as [width height].
  destruct (HAS_NUMPY rt).
  - unfold np_array. destruct (Image.pixels img) as [px | e]; [| done].
    simpl. destruct (np_std rt px) as [sd | e]; [| done]. simpl.
    destruct (np_mean px) as [[m0 m1] m2].
    match goal with |- context [if ?c then _ else _] => destruct c eqn:Hc end.
    + apply andb_prop in Hc as [_ Hh]. apply nonempty_spec in Hh.
      destruct (getitem_mod (healthy_of cls)
                  (Z.abs (hash rt (np_str rt (m0, m1, m2)))) Hh)
        as (y & Hy & Hin).
      cbv zeta. rewrite Hy. intros [= <-].
      by apply healthy_of_subset.
    + intros H. by apply disease_or_fallback_sound in H as [? _].
  - match goal with |- context [if ?c then _ else _] => destruct c eqn:Hc end.
    + apply andb_prop in Hc as [_ Hh]. apply nonempty_spec in Hh.
      destruct (getitem_mod (healthy_of cls) (Z.abs (hash rt (hash_key img))) Hh)
        as (y & -> & Hin).
      intros [= <-]. by apply healthy_of_subset.
    + intros H. by apply disease_or_fallback_sound in H as [? _].
Qed.

Lemma tomato_healthy_in_classes : "Tomato___healthy" ∈ classes.
Proof. apply list_elem_of_In. vm_compute. tauto. Qed.

Lemma mock_prediction_in_classes rt img : mock_prediction rt img classes ∈ classes.
Proof.
  unfold mock_prediction.
  destruct (mock_prediction_body rt img classes) as [x | e] eqn:Hb; simpl.
  - by eapply mock_prediction_body_sound.
  - apply tomato_healthy_in_classes.
Qed.

(** ** The branches of [makePrediction] *)

Section MakePrediction.

Context (rt : Runtime) (fs : gmap string File) (path : string).

Lemma exists_true f : fs !! path = Some f → os_path_exists fs path = true.
Proof. intros Hf. unfold os_path_exists. rewrite Hf. by apply bool_decide_eq_true. Qed.

Lemma makePrediction_missing :
  fs !! path = None → makePrediction rt fs path = "Error: Image file not found".
Proof.
  intros Hf. unfold makePrediction, makePrediction_body, os_path_exists.
  rewrite Hf. rewrite bool_decide_eq_false_2; [done |].
  by intros [? ?].
Qed.

(** Without Pillow the label is the class at [abs(hash(basename)) mod 38],
    whatever the file contains. *)
Lemma makePrediction_no_pil f :
  fs !! path = Some f → HAS_PIL rt = false →
  getitem classes (Z.abs (hash rt (PyStr.basename path)) mod 38)
    = Return (makePrediction rt fs path)
  ∧ makePrediction rt fs path ∈ classes.
Proof.
  intros Hf Hpil. unfold makePrediction, makePrediction_body.
  rewrite (exists_true f Hf), Hpil. simpl negb. cbv iota.
  change (nonempty classes) with true. cbv iota.
  change (Z.of_nat (length classes)) with 38.
  destruct (getitem_mod classes (Z.abs (hash rt (PyStr.basename path))))
    as (x & Hx & Hin); [done |].
  change (Z.of_nat (length classes)) with 38 in Hx.
  rewrite Hx. by split.
Qed.

Lemma load_and_check_undecodable f :
  fs !! path = Some f → HAS_PIL rt = true →
  (image f = None ∨ ∃ fmt dims e, image f = Some (fmt, dims, Raise e)) →
  ∃ e, load_and_check rt fs path = Raise e.
Proof.
  intros Hf Hpil Himg. unfold load_and_check, Image_open.
  rewrite Hpil, Hf. simpl negb. cbv iota.
  destruct Himg as [-> | (fmt & dims & e & ->)]; simpl; eauto.
Qed.

Lemma load_and_check_decoded f fmt w h px :
  fs !! path = Some f → HAS_PIL rt = true →
  image f = Some (fmt, (w, h), Return px) →
  load_and_check rt fs path =
    if (w <? 50) || (h <? 50)
    then Return (inl "Error: Image too small for analysis")
    else if (w >? 5000) || (h >? 5000)
    then Return (inl "Error: Image too large for analysis")
    else Return (inr (Image.mk None None (w, h) (Return px))).
Proof.
  intros Hf Hpil Himg. unfold load_and_check, Image_open.
  rewrite Hpil, Hf, Himg. reflexivity.
Qed.

Lemma makePrediction_undecodable f :
  fs !! path = Some f → HAS_PIL rt = true →
  (image f = None ∨ ∃ fmt dims e, image f = Some (fmt, dims, Raise e)) →
  makePrediction rt fs path = "Error: Invalid image format".
Proof.
  intros Hf Hpil Himg.
  destruct (load_and_check_undecodable f Hf Hpil Himg) as [e He].
  unfold makePrediction, makePrediction_body.
  rewrite (exists_true f Hf), Hpil, He. reflexivity.
Qed.

Lemma makePrediction_decoded f fmt w h px :
  fs !! path = Some f → HAS_PIL rt = true →
  image f = Some (fmt, (w, h), Return px) →
  makePrediction rt fs path =
    if (w <? 50) || (h <? 50) then "Error: Image too small for analysis"
    else if (w >? 5000) || (h >? 5000) then "Error: Image too large for analysis"
    else mock_prediction rt (Image.mk None None (w, h) (Return px)) classes.
Proof.
  intros Hf Hpil Himg. unfold makePrediction, makePrediction_body.
  rewrite (exists_true f Hf), Hpil.
  rewrite (load_and_check_decoded f fmt w h px Hf Hpil Himg).
  simpl negb. cbv iota.
  destruct ((w <? 50) || (h <? 50)); [done |].
  destruct ((w >? 5000) || (h >? 5000)); done.
Qed.

End MakePrediction.

Lemma in_range_tests (w h : Z) :
  50 <= w <= 5000 → 50 <= h <= 5000 →
  (w <? 50) || (h <? 50) = false ∧ (w >? 5000) || (h >? 5000) = false.
Proof.
  intros Hw Hh. split; apply orb_false_intro; lia.
Qed.

Lemma out_of_range_tests (w h : Z) :
  (w <? 50) || (h <? 50) = true ∨ (w >? 5000) || (h >? 5000) = true
  ↔ w < 50 ∨ h < 50 ∨ w > 5000 ∨ h > 5000.
Proof.
  rewrite !orb_true_iff, !Z.ltb_lt, !Z.gtb_gt. tauto.
Qed.

Lemma classes_not_error (c : string) : c ∈ classes → is_error c = false.
Proof.
  intros Hc. apply list_elem_of_In in Hc.
  assert (forallb (fun c => negb (is_error c)) classes = true) as Hall
    by (vm_compute; reflexivity).
  rewrite forallb_forall in Hall. apply Hall in Hc. by destruct (is_error c).
Qed.

Lemma classes_length : length classes = 38%nat.
Proof. reflexivity. Qed.

(** ** Taxonomy closure *)

(** C3. For every valid input (the file exists, decodes to an image, and
    its width and height lie between 50 and 5000), whatever the process,
    the label [makePrediction] returns is one of the 38 classes. *)
Theorem C3_taxonomy_closure rt (fs : gmap string File) (path : string) :
  valid_input fs path →
  makePrediction rt fs path ∈ classes ∧ length classes = 38%nat.
Proof.
  intros (f & fmt & w & h & px & Hf & Himg & Hw & Hh).
  split; [| apply classes_length].
  destruct (HAS_PIL rt) eqn:Hpil.
  - rewrite (makePrediction_decoded rt fs path f fmt w h px Hf Hpil Himg).
    destruct (in_range_tests w h Hw Hh) as [-> ->].
    apply mock_prediction_in_classes.
  - by destruct (makePrediction_no_pil rt fs path f Hf Hpil).
Qed.

Lemma valid_leaf : valid_input disk "/app/static/leaf.jpg".
Proof.
  exists green_50, "PNG", 50, 50, green_pixels.
  repeat split; try lia; vm_compute; reflexivity.
Qed.

(** C3 at the 50 x 50 pure green image. *)
Lemma C3_witness :
  makePrediction (cpython 0 true) disk "/app/static/leaf.jpg" ∈ classes
  ∧ length classes = 38%nat.
Proof. exact (C3_taxonomy_closure (cpython 0 true) disk _ valid_leaf). Defined.

(** A successful inner [try] block hands its image to [mock_prediction]. *)
Lemma makePrediction_checked rt (fs : gmap string File) (path : string) img :
  load_and_check rt fs path = Return (inr img) →
  makePrediction rt fs path = mock_prediction rt img classes.
Proof.
  intros Hl. unfold makePrediction, makePrediction_body.
  assert (HAS_PIL rt = true ∧ is_Some (fs !! path)) as [Hpil [f Hf]].
  { unfold load_and_check, Image_open in Hl.
    destruct (HAS_PIL rt); [| done].
    destruct (fs !! path); [eauto | done]. }
  rewrite (exists_true fs path f Hf), Hpil, Hl. reflexivity.
Qed.

(** ** Failure inside label selection *)

(** C10. When validation succeeded (the inner [try] block of
    [makePrediction] produced the image) and the body of [mock_prediction]
    raises, [mock_prediction] and with it [makePrediction] return
    ["Tomato___healthy"]: a member of the healthy part of the taxonomy that
    does not carry the ["Error:"] prefix. *)
Theorem C10_selection_failure_is_healthy rt (fs : gmap string File)
    (path : string) img e :
  load_and_check rt fs path = Return (inr img) →
  mock_prediction_body rt img classes = Raise e →
  mock_prediction rt img classes = "Tomato___healthy"
  ∧ makePrediction rt fs path = "Tomato___healthy"
  ∧ "Tomato___healthy" ∈ healthy_of classes
  ∧ "Tomato___healthy" ∈ classes
  ∧ is_error "Tomato___healthy" = false.
Proof.
  intros Hl Hb.
  assert (mock_prediction rt img classes = "Tomato___healthy") as Hm
    by (unfold mock_prediction; by rewrite Hb).
  split; [done |]. split; [by rewrite (makePrediction_checked _ _ _ _ Hl) |].
  split; [apply list_elem_of_In; vm_compute; tauto |].
  split; [apply tomato_healthy_in_classes | reflexivity].
Qed.

(** C10 in a process where [np.std] raises [MemoryError]. *)
Lemma C10_witness :
  mock_prediction numpy_out_of_memory
    (Image.mk None None (50, 50) (Return green_pixels)) classes
    = "Tomato___healthy"
  ∧ makePrediction numpy_out_of_memory disk "/app/static/leaf.jpg"
    = "Tomato___healthy"
  ∧ "Tomato___healthy" ∈ healthy_of classes
  ∧ "Tomato___healthy" ∈ classes
  ∧ is_error "Tomato___healthy" = false.
Proof.
  apply (C10_selection_failure_is_healthy numpy_out_of_memory disk
           "/app/static/leaf.jpg" _
           (Exception "MemoryError" "Unable to allocate array")).
  - vm_compute. reflexivity.
  - vm_compute. reflexivity.
Defined.

(** ** The error prefix *)

(** C2, counterexample: in a process without Pillow a file in which no
    image can be identified is not a valid input, and yet it is answered
    with a taxonomy label, not with a sentinel. *)
Lemma C2_counterexample :
  ¬ valid_input disk "/app/static/notes.jpg"
  ∧ makePrediction (cpython 0 false) disk "/app/static/notes.jpg"
    = "Pepper,_bell___healthy"
  ∧ is_error (makePrediction (cpython 0 false) disk "/app/static/notes.jpg")
    = false.
Proof.
  split; [| split; vm_compute; reflexivity].
  intros (f & fmt & w & h & px & Hf & Himg & _).
  assert (disk !! "/app/static/notes.jpg" = Some text_file) as Hd
    by (vm_compute; reflexivity).
  assert (f = text_file) as -> by congruence.
  discriminate Himg.
Qed.

(** C2, amended. [makePrediction] is total: it returns a string for every
    process, file system and path.  The string carries the ["Error:"]
    prefix exactly when the file is not found, or Pillow is available and
    the input is not valid (the file does not decode, or its width or
    height is outside 50..5000).  Without Pillow an existing file is never
    answered with a sentinel. *)
Theorem C2_error_prefix rt (fs : gmap string File) (path : string) :
  is_error (makePrediction rt fs path) = true
  ↔ fs !! path = None ∨ (HAS_PIL rt = true ∧ ¬ valid_input fs path).
Proof.
  destruct (fs !! path) as [f |] eqn:Hf.
  2:{ rewrite (makePrediction_missing rt fs path Hf). split; [by left | done]. }
  destruct (HAS_PIL rt) eqn:Hpil.
  2:{ destruct (makePrediction_no_pil rt fs path f Hf Hpil) as [_ Hin].
      rewrite (classes_not_error _ Hin). split; [done |].
      intros [? | [? _]]; done. }
  assert (∀ fmt w h px, image f = Some (fmt, (w, h), Return px) →
            valid_input fs path ↔ 50 <= w <= 5000 ∧ 50 <= h <= 5000) as Hv.
  { intros fmt w h px Himg. split.
    - intros (f' & fmt' & w' & h' & px' & Hf' & Himg' & Hw & Hh).
      assert (f' = f) as -> by congruence.
      rewrite Himg in Himg'. by injection Himg' as <- <- <- <-.
    - intros [Hw Hh]. by exists f, fmt, w, h, px. }
  assert (image f = None ∨ (∃ fmt dims e, image f = Some (fmt, dims, Raise e))
          → ¬ valid_input fs path) as Hbad.
  { intros Himg (f' & fmt' & w' & h' & px' & Hf' & Himg' & _).
    assert (f' = f) as -> by congruence.
    destruct Himg as [Hn | (fmt & dims & e & He)]; congruence. }
  destruct (image f) as [[[fmt [w h]] [px | e]] |] eqn:Himg.
  - rewrite (makePrediction_decoded rt fs path f fmt w h px Hf Hpil Himg).
    rewrite (Hv fmt w h px eq_refl).
    destruct ((w <? 50) || (h <? 50)) eqn:Hs.
    { apply orb_true_iff in Hs. rewrite !Z.ltb_lt in Hs.
      split; [intros _; right; split; [done | lia] | done]. }
    destruct ((w >? 5000) || (h >? 5000)) eqn:Hl.
    { apply orb_true_iff in Hl. rewrite !Z.gtb_gt in Hl.
      split; [intros _; right; split; [done | lia] | done]. }
    apply orb_false_elim in Hs as [Hs1 Hs2]. apply orb_false_elim in Hl as [Hl1 Hl2].
    rewrite (classes_not_error _ (mock_prediction_in_classes rt _)).
    split; [done |]. intros [? | [_ Hn]]; [done |]. exfalso. apply Hn. lia.
  - rewrite (makePrediction_undecodable rt fs path f Hf Hpil); [| right; eauto].
    split; [intros _; right; split; [done |] | done].
    apply Hbad. right. eauto.
  - rewrite (makePrediction_undecodable rt fs path f Hf Hpil); [| by left].
    split; [intros _; right; split; [done |] | done].
    apply Hbad. by left.
Qed.

(** ** The dimension check *)

(** C7, counterexample: in a process without Pillow a decodable 49 x 49
    image is answered with a taxonomy label, not with a dimension
    sentinel. *)
Lemma C7_counterexample :
  disk !! "/app/static/small.png" = Some small_49
  ∧ (∃ px, image small_49 = Some ("PNG", (49, 49), Return px))
  ∧ makePrediction (cpython 0 false) disk "/app/static/small.png"
    = "Apple___Apple_scab"
  ∧ "Apple___Apple_scab" ∈ classes
  ∧ ¬ DimensionOutOfRange
        (makePrediction (cpython 0 false) disk "/app/static/small.png").
Proof.
  split; [vm_compute; reflexivity |].
  split; [eexists; reflexivity |].
  split; [vm_compute; reflexivity |].
  split; [apply list_elem_of_In; vm_compute; tauto |].
  intros [H | H]; vm_compute in H; discriminate H.
Qed.

(** C7, amended. When Pillow is available, for every file that decodes to
    an image, [makePrediction] answers with one of the two dimension
    sentinels exactly when the width or the height is below 50 or above
    5000; such an answer carries the ["Error:"] prefix and is no taxonomy
    label; a 49 x 49 image is answered with the too-small sentinel.
    Without Pillow no dimension is checked. *)
Theorem C7_dimension_check rt (fs : gmap string File) (path : string)
    f fmt w h px :
  HAS_PIL rt = true →
  fs !! path = Some f →
  image f = Some (fmt, (w, h), Return px) →
  (DimensionOutOfRange (makePrediction rt fs path)
     ↔ w < 50 ∨ h < 50 ∨ w > 5000 ∨ h > 5000)
  ∧ (DimensionOutOfRange (makePrediction rt fs path) →
       is_error (makePrediction rt fs path) = true
       ∧ makePrediction rt fs path ∉ classes)
  ∧ (w = 49 → h = 49 →
       makePrediction rt fs path = "Error: Image too small for analysis").
Proof.
  intros Hpil Hf Himg.
  rewrite (makePrediction_decoded rt fs path f fmt w h px Hf Hpil Himg).
  split; [| split].
  - destruct ((w <? 50) || (h <? 50)) eqn:Hs.
    { apply orb_true_iff in Hs. rewrite !Z.ltb_lt in Hs.
      split; [lia | intros _; by left]. }
    destruct ((w >? 5000) || (h >? 5000)) eqn:Hl.
    { apply orb_true_iff in Hl. rewrite !Z.gtb_gt in Hl.
      split; [lia | intros _; by right]. }
    apply orb_false_elim in Hs as [Hs1 Hs2]. apply orb_false_elim in Hl as [Hl1 Hl2].
    split; [| lia].
    intros Hd. exfalso.
    pose proof (classes_not_error _ (mock_prediction_in_classes rt
                  (Image.mk None None (w, h) (Return px)))) as Hne.
    destruct Hd as [Hd | Hd]; rewrite Hd in Hne; discriminate Hne.
  - intros Hd.
    assert (is_error (if (w <? 50) || (h <? 50)
                      then "Error: Image too small for analysis"
                      else if (w >? 5000) || (h >? 5000)
                      then "Error: Image too large for analysis"
                      else mock_prediction rt
                             (Image.mk None None (w, h) (Return px)) classes)
            = true) as He
      by (destruct Hd as [-> | ->]; reflexivity).
    split; [done |]. intros Hin. apply classes_not_error in Hin. congruence.
  - intros -> ->. reflexivity.
Qed.

(** C7 at the 49 x 49 image, with Pillow. *)
Lemma C7_witness :
  (DimensionOutOfRange (makePrediction (cpython 0 true) disk "/app/static/small.png")
     ↔ 49 < 50 ∨ 49 < 50 ∨ 49 > 5000 ∨ 49 > 5000)
  ∧ (DimensionOutOfRange (makePrediction (cpython 0 true) disk "/app/static/small.png") →
       is_error (makePrediction (cpython 0 true) disk "/app/static/small.png") = true
       ∧ makePrediction (cpython 0 true) disk "/app/static/small.png" ∉ classes)
  ∧ (49 = 49 → 49 = 49 →
       makePrediction (cpython 0 true) disk "/app/static/small.png"
       = "Error: Image too small for analysis").
Proof.
  apply (C7_dimension_check (cpython 0 true) disk "/app/static/small.png"
           small_49 "PNG" 49 49 (repeat (10, 200, 10) 2401)).
  - reflexivity.
  - vm_compute. reflexivity.
  - reflexivity.
Defined.

(** ** Size and format *)

(** C8, counterexample: a bitmap of twenty million bytes breaches both
    bounds of [validate_image], and [makePrediction] selects a label for
    it. *)
Lemma C8_counterexample :
  validate_image (cpython 0 true) disk "/app/static/big.bmp"
    = (false, "Image file too large (max 16MB)")
  ∧ (st_size big_bmp > 16 * 1024 * 1024)
  ∧ (∃ dims px, image big_bmp = Some ("BMP", dims, px))
  ∧ ("BMP" ∉ accepted_formats)
  ∧ makePrediction (cpython 0 true) disk "/app/static/big.bmp"
    = "Strawberry___Leaf_scorch"
  ∧ "Strawberry___Leaf_scorch" ∈ classes.
Proof.
  split; [vm_compute; reflexivity |].
  split; [reflexivity |].
  split; [do 2 eexists; reflexivity |].
  split; [intros H; apply list_elem_of_In in H; vm_compute in H; intuition discriminate |].
  split; [vm_compute; reflexivity |].
  apply list_elem_of_In. vm_compute. tauto.
Qed.

Lemma format_test (fmt : string) :
  fmt ∉ accepted_formats →
  bool_decide (Some fmt ∈ [Some "JPEG"; Some "PNG"; Some "GIF"]) = false.
Proof.
  intros Hn. apply bool_decide_eq_false_2. intros Hin. apply Hn.
  unfold accepted_formats. rewrite !elem_of_cons in *.
  destruct Hin as [[= ->] | [[= ->] | [[= ->] | Hin]]]; auto.
  by apply elem_of_nil in Hin.
Qed.

(** C8, amended. For an existing file, [validate_image] answers
    [(False, "Image file too large (max 16MB)")] when the file is longer
    than 16 MiB and, Pillow being available,
    [(False, "Unsupported image format")] when the file is at most 16 MiB
    and Pillow identifies a format other than JPEG, PNG and GIF.
    [makePrediction] does not call [validate_image] and checks neither the
    length nor the format: with Pillow available, every file that decodes
    to an image of width and height in 50..5000 reaches [mock_prediction]
    and is given a taxonomy label. *)
Theorem C8_size_and_format rt (fs : gmap string File) (path : string) f :
  fs !! path = Some f →
  (st_size f > 16 * 1024 * 1024 →
     validate_image rt fs path = (false, "Image file too large (max 16MB)"))
  ∧ (∀ fmt dims px,
       HAS_PIL rt = true → st_size f <= 16 * 1024 * 1024 →
       image f = Some (fmt, dims, px) → fmt ∉ accepted_formats →
       validate_image rt fs path = (false, "Unsupported image format"))
  ∧ (∀ fmt w h px,
       HAS_PIL rt = true → image f = Some (fmt, (w, h), Return px) →
       50 <= w <= 5000 → 50 <= h <= 5000 →
       makePrediction rt fs path = mock_prediction rt (converted w h px) classes
       ∧ makePrediction rt fs path ∈ classes).
Proof.
  intros Hf. split; [| split].
  - intros Hbig. unfold validate_image, os_path_getsize.
    rewrite (exists_true fs path f Hf), Hf. simpl.
    destruct (Z.gtb_spec (st_size f) (16 * 1024 * 1024)) as [_ | ?]; [done | lia].
  - intros fmt dims px Hpil Hsz Himg Hfmt.
    unfold validate_image, os_path_getsize, Image_open.
    rewrite (exists_true fs path f Hf), Hf, Hpil, Himg. simpl.
    destruct (Z.gtb_spec (st_size f) (16 * 1024 * 1024)) as [? | _]; [lia |].
    simpl. by rewrite (format_test fmt Hfmt).
  - intros fmt w h px Hpil Himg Hw Hh.
    rewrite (makePrediction_decoded rt fs path f fmt w h px Hf Hpil Himg).
    destruct (in_range_tests w h Hw Hh) as [-> ->].
    split; [done | apply mock_prediction_in_classes].
Qed.

(** C8 at the bitmap of twenty million bytes. *)
Lemma C8_witness :
  validate_image (cpython 0 true) disk "/app/static/big.bmp"
    = (false, "Image file too large (max 16MB)").
Proof.
  assert (disk !! "/app/static/big.bmp" = Some big_bmp) as Hf
    by (vm_compute; reflexivity).
  apply (C8_size_and_format (cpython 0 true) disk "/app/static/big.bmp" big_bmp Hf).
  reflexivity.
Defined.

(** ** The success flag *)

(** C5, counterexample: the upload of a 49 x 49 image is answered with
    ['success': True] although the raw label is a sentinel. *)
Lemma C5_counterexample :
  let r := fst (api_predict (cpython 0 true) "20240101_120000" "0a1b2c3d" ∅
                  small_request) in
  success r = true
  ∧ original_prediction_of r = Some "Error: Image too small for analysis"
  ∧ is_error "Error: Image too small for analysis" = true.
Proof. vm_compute. auto. Qed.

Lemma allowed_file_ext (name : string) :
  allowed_file name = true → ∃ ext, PyStr.after_last "."%char name = Some ext.
Proof.
  unfold allowed_file. destruct (PyStr.after_last "." name); [eauto | done].
Qed.

(** C5, amended. The success flag of an [api_predict] response does not
    depend on the raw label.  It is true exactly when the body of the
    request is at most 16 MiB long, a file was uploaded, its name is not
    empty and has an allowed extension, and the upload could be saved; the
    response then carries as [original_prediction] whatever
    [makePrediction] returned for the saved file, sentinel or label, and
    as [prediction] its formatted form. *)
Theorem C5_success_flag rt (timestamp unique_id : string)
    (fs : gmap string File) (request : Request) :
  let r := fst (api_predict rt timestamp unique_id fs request) in
  (success r = true
   ↔ content_length request <= MAX_CONTENT_LENGTH
     ∧ ∃ img, files_img request = Some img ∧ up_filename img ≠ ""
              ∧ allowed_file (up_filename img) = true ∧ writable rt = true)
  ∧ (success r = true →
     ∃ img name,
       files_img request = Some img
       ∧ generate_unique_filename timestamp unique_id (up_filename img)
         = Return name
       ∧ let loc := os_path_join (IMAGE_FOLDER rt) name in
         let raw := makePrediction rt (<[loc := up_file img]> fs) loc in
         r = Prediction (format_prediction (Some raw)) raw name
               (calculate_mock_confidence rt raw)).
Proof.
  unfold api_predict, request_files, api_failed.
  destruct (Z.gtb_spec (content_length request) MAX_CONTENT_LENGTH) as [Hbig | Hok].
  { simpl. split; [split; [done |] | done]. intros [? _]. lia. }
  destruct (files_img request) as [img |]; simpl.
  2:{ split; [split; [done | by intros (_ & ? & ? & _)] | done]. }
  destruct (decide (up_filename img = "")) as [He | He].
  { rewrite bool_decide_eq_true_2 by done. simpl.
    split; [split; [done |] | done].
    intros (_ & ? & [= <-] & ? & _). done. }
  rewrite bool_decide_eq_false_2 by done.
  destruct (allowed_file (up_filename img)) eqn:Ha; simpl.
  2:{ split; [split; [done |] | done].
      intros (_ & ? & [= <-] & _ & ? & _). congruence. }
  destruct (allowed_file_ext _ Ha) as [ext Hext].
  unfold generate_unique_filename, save. rewrite Hext.
  destruct (writable rt) eqn:Hw; simpl.
  - split; [split; [intros _; split; [done | by exists img] | done] |].
    intros _. exists img. eexists. split; [done |]. rewrite Hext.
    split; reflexivity.
  - split; [split; [done |] | done].
    intros (_ & ? & _ & _ & _ & ?). done.
Qed.

(** ** The choice between the healthy and the diseased classes *)

Lemma healthy_classes_nonempty : healthy_of classes ≠ [].
Proof. vm_compute. discriminate. Qed.

Lemma disease_classes_nonempty : disease_of classes ≠ [].
Proof. vm_compute. discriminate. Qed.

Lemma tomato_healthy_is_healthy : "Tomato___healthy" ∈ healthy_of classes.
Proof. apply list_elem_of_In. vm_compute. tauto. Qed.

(** A disease class is returned whenever there is one. *)
Lemma disease_or_fallback_returns (cls : list string) (h : Z) :
  disease_of cls ≠ [] →
  ∃ x, disease_or_fallback cls h = Return x ∧ x ∈ disease_of cls.
Proof.
  intros Hd. unfold disease_or_fallback.
  rewrite (proj2 (nonempty_spec _) Hd).
  exact (getitem_mod (disease_of cls) h Hd).
Qed.

Section Subsets.

Context (rt : Runtime) (cls : list string).
Hypothesis healthy_nonempty : healthy_of cls ≠ [].
Hypothesis disease_nonempty : disease_of cls ≠ [].

(** With NumPy, a very green image is given a healthy class; when the rest
    of the analysis raises, the fallback is returned. *)
Lemma mock_prediction_numpy_green_in img (px : list Pixel) :
  HAS_NUMPY rt = true → Image.pixels img = Return px →
  very_green px = true →
  mock_prediction rt img cls ∈ healthy_of cls
  ∨ mock_prediction rt img cls = "Tomato___healthy".
Proof.
  intros Hnp Hpx Hg. unfold mock_prediction, mock_prediction_body, np_array.
  destruct (Image.size img) as [width height].
  rewrite Hnp, Hpx. cbn [mbind Py_bind].
  destruct (np_std rt px) as [sd | e]; [| by right].
  cbn [mbind Py_bind].
  unfold very_green in Hg. destruct (np_mean px) as [[m0 m1] m2].
  rewrite Hg. rewrite (proj2 (nonempty_spec _) healthy_nonempty).
  cbn [andb]. cbv zeta.
  destruct (getitem_mod (healthy_of cls)
              (Z.abs (hash rt (np_str rt (m0, m1, m2))))
              healthy_nonempty) as (y & -> & Hin).
  by left.
Qed.

(** With NumPy, an image that is not very green is given a disease class
    when the analysis raises nothing. *)
Lemma mock_prediction_numpy_other_in img (px : list Pixel) sd :
  HAS_NUMPY rt = true → Image.pixels img = Return px →
  np_std rt px = Return sd →
  very_green px = false →
  mock_prediction rt img cls ∈ disease_of cls.
Proof.
  intros Hnp Hpx Hsd Hg. unfold mock_prediction, mock_prediction_body, np_array.
  destruct (Image.size img) as [width height].
  rewrite Hnp, Hpx. cbn [mbind Py_bind]. rewrite Hsd. cbn [mbind Py_bind].
  unfold very_green in Hg. destruct (np_mean px) as [[m0 m1] m2].
  rewrite Hg. cbn [andb].
  destruct (disease_or_fallback_returns cls
              (Z.abs (hash rt (np_str rt (m0, m1, m2) +:+ np_str rt sd)))
              disease_nonempty) as (x & -> & Hin).
  exact Hin.
Qed.

(** Without NumPy the subset follows [filename_hash % 4]. *)
Lemma mock_prediction_no_numpy_in img :
  HAS_NUMPY rt = false →
  let filename_hash := Z.abs (hash rt (hash_key img)) in
  (filename_hash mod 4 = 0 → mock_prediction rt img cls ∈ healthy_of cls)
  ∧ (filename_hash mod 4 ≠ 0 → mock_prediction rt img cls ∈ disease_of cls).
Proof.
  intros Hnp h. unfold mock_prediction, mock_prediction_body.
  destruct (Image.size img) as [width height] eqn:Hsz.
  rewrite Hnp. cbv zeta. fold h.
  rewrite (proj2 (nonempty_spec _) healthy_nonempty).
  split; intros Hh.
  - rewrite Hh. cbn [Z.eqb andb].
    destruct (getitem_mod (healthy_of cls) h healthy_nonempty)
      as (y & -> & Hin).
    exact Hin.
  - destruct (Z.eqb_spec (h mod 4) 0) as [? | _]; [done |]. cbn [andb].
    destruct (disease_or_fallback_returns cls h disease_nonempty)
      as (x & -> & Hin).
    exact Hin.
Qed.

End Subsets.

Lemma mock_prediction_numpy_green rt img (px : list Pixel) :
  HAS_NUMPY rt = true → Image.pixels img = Return px →
  very_green px = true →
  mock_prediction rt img classes ∈ healthy_of classes.
Proof.
  intros Hnp Hpx Hg.
  destruct (mock_prediction_numpy_green_in rt classes healthy_classes_nonempty
              img px Hnp Hpx Hg) as [H | ->]; [done |].
  apply tomato_healthy_is_healthy.
Qed.

Lemma mock_prediction_numpy_other rt img (px : list Pixel) sd :
  HAS_NUMPY rt = true → Image.pixels img = Return px →
  np_std rt px = Return sd →
  very_green px = false →
  mock_prediction rt img classes ∈ disease_of classes.
Proof.
  apply mock_prediction_numpy_other_in, disease_classes_nonempty.
Qed.

Lemma mock_prediction_no_numpy rt img :
  HAS_NUMPY rt = false →
  let filename_hash := Z.abs (hash rt (hash_key img)) in
  (filename_hash mod 4 = 0 → mock_prediction rt img classes ∈ healthy_of classes)
  ∧ (filename_hash mod 4 ≠ 0 → mock_prediction rt img classes ∈ disease_of classes).
Proof.
  apply mock_prediction_no_numpy_in;
    [apply healthy_classes_nonempty | apply disease_classes_nonempty].
Qed.

Lemma pure_green_is_very_green : very_green green_pixels = true.
Proof. vm_compute. reflexivity. Qed.

(** C6, counterexample: in a process without NumPy the 50 x 50 pure green
    image is given a disease class; and with NumPy an image whose green
    mean is exactly 1.2 times its red mean is given a disease class too. *)
Lemma C6_counterexample :
  (valid_input disk "/app/static/leaf.jpg"
   ∧ disk !! "/app/static/leaf.jpg" = Some (png 50 50 green_pixels)
   ∧ np_mean green_pixels = (0%float, 255%float, 0%float)
   ∧ makePrediction (cpython 0 true) disk "/app/static/leaf.jpg"
     = "Squash___Powdery_mildew"
   ∧ ("Squash___Powdery_mildew" ∉ healthy_of classes))
  ∧ (disk !! "/app/static/olive.png" = Some (png 50 50 (repeat (5, 6, 0) 2500))
     ∧ np_mean (repeat (5, 6, 0) 2500) = (5%float, 6%float, 0%float)
     ∧ (makePrediction numpy_uniform disk "/app/static/olive.png"
        ∉ healthy_of classes)).
Proof.
  split; [split; [apply valid_leaf |] |].
  - split; [vm_compute; reflexivity |].
    split; [vm_compute; reflexivity |].
    split; [vm_compute; reflexivity |].
    intros H. apply list_elem_of_In in H. vm_compute in H. intuition discriminate.
  - split; [vm_compute; reflexivity |].
    split; [vm_compute; reflexivity |].
    intros H. apply list_elem_of_In in H. vm_compute in H. intuition discriminate.
Qed.

(** C6, amended. When Pillow and NumPy are both available, for every file
    that decodes to an image of width and height in 50..5000: if the green
    mean is strictly greater than 1.2 times the red mean and than 1.2 times
    the blue mean (in [float64]), the label is a healthy class; if it is
    not, and [np.std] raises nothing, the label is a disease class.  The
    50 x 50 pure green image passes the test.  Without NumPy the colours
    play no part in the choice. *)
Theorem C6_green_dominance rt (fs : gmap string File) (path : string)
    f fmt w h px :
  HAS_PIL rt = true → HAS_NUMPY rt = true →
  fs !! path = Some f →
  image f = Some (fmt, (w, h), Return px) →
  50 <= w <= 5000 → 50 <= h <= 5000 →
  (very_green px = true → makePrediction rt fs path ∈ healthy_of classes)
  ∧ (very_green px = false → (∃ sd, np_std rt px = Return sd) →
       makePrediction rt fs path ∈ disease_of classes)
  ∧ very_green green_pixels = true.
Proof.
  intros Hpil Hnp Hf Himg Hw Hh.
  rewrite (makePrediction_decoded rt fs path f fmt w h px Hf Hpil Himg).
  destruct (in_range_tests w h Hw Hh) as [-> ->].
  split; [| split].
  - intros Hg. by apply (mock_prediction_numpy_green rt _ px).
  - intros Hg [sd Hsd]. by apply (mock_prediction_numpy_other rt _ px sd).
  - apply pure_green_is_very_green.
Qed.

(** C6 at the 50 x 50 pure green image, with Pillow and NumPy. *)
Lemma C6_witness :
  makePrediction numpy_uniform disk "/app/static/leaf.jpg" ∈ healthy_of classes.
Proof.
  refine (proj1 (C6_green_dominance numpy_uniform disk "/app/static/leaf.jpg"
                   green_50 "PNG" 50 50 green_pixels _ _ _ _ _ _) _);
    first [lia | vm_compute; reflexivity].
Defined.

(** ** The degraded paths *)

(** C9, counterexample: without Pillow, a file name whose hash is 3 modulo
    4 is given a healthy class, and one whose hash is 0 modulo 4 a disease
    class. *)
Lemma C9_counterexample :
  HAS_PIL (cpython 0 false) = false
  ∧ (Z.abs (hash (cpython 0 false) "notes.jpg") mod 4 = 3
     ∧ makePrediction (cpython 0 false) disk "/app/static/notes.jpg"
       = "Pepper,_bell___healthy"
     ∧ "Pepper,_bell___healthy" ∈ healthy_of classes)
  ∧ (Z.abs (hash (cpython 0 false) "small.png") mod 4 = 0
     ∧ makePrediction (cpython 0 false) disk "/app/static/small.png"
       = "Apple___Apple_scab"
     ∧ "Apple___Apple_scab" ∈ disease_of classes).
Proof.
  split; [reflexivity |].
  split; (split; [vm_compute; reflexivity |]);
    (split; [vm_compute; reflexivity |]);
    apply list_elem_of_In; vm_compute; tauto.
Qed.

(** C9, amended. There are two degraded paths.  Without Pillow,
    [makePrediction] returns the class at index
    [abs(hash(basename(path))) mod 38] of the whole taxonomy: no split into
    healthy and diseased is made.  With Pillow but without NumPy,
    [mock_prediction] hashes [img.filename] when the image object has that
    attribute and [str(width * height)] otherwise; if that hash is 0
    modulo 4 the label is a healthy class, else a disease class.  The image
    [makePrediction] passes is the converted copy, whose key is
    [str(width * height)]. *)
Theorem C9_degraded_paths rt (fs : gmap string File) (path : string) f :
  fs !! path = Some f →
  (HAS_PIL rt = false →
     getitem classes (Z.abs (hash rt (PyStr.basename path)) mod 38)
     = Return (makePrediction rt fs path))
  ∧ (∀ img, HAS_NUMPY rt = false →
       let filename_hash := Z.abs (hash rt (hash_key img)) in
       (filename_hash mod 4 = 0 →
          mock_prediction rt img classes ∈ healthy_of classes)
       ∧ (filename_hash mod 4 ≠ 0 →
          mock_prediction rt img classes ∈ disease_of classes))
  ∧ (∀ fmt w h px,
       HAS_PIL rt = true → image f = Some (fmt, (w, h), Return px) →
       50 <= w <= 5000 → 50 <= h <= 5000 →
       makePrediction rt fs path = mock_prediction rt (converted w h px) classes
       ∧ hash_key (converted w h px) = PyStr.str_of_int (w * h)).
Proof.
  intros Hf. split; [| split].
  - intros Hpil. by destruct (makePrediction_no_pil rt fs path f Hf Hpil).
  - intros img Hnp. by apply mock_prediction_no_numpy.
  - intros fmt w h px Hpil Himg Hw Hh.
    rewrite (makePrediction_decoded rt fs path f fmt w h px Hf Hpil Himg).
    destruct (in_range_tests w h Hw Hh) as [-> ->]. by split.
Qed.

(** C9 at an existing file, without Pillow. *)
Lemma C9_witness :
  getitem classes
    (Z.abs (hash (cpython 0 false) (PyStr.basename "/app/static/notes.jpg")) mod 38)
  = Return (makePrediction (cpython 0 false) disk "/app/static/notes.jpg").
Proof.
  refine (proj1 (C9_degraded_paths (cpython 0 false) disk "/app/static/notes.jpg"
                   text_file _) _).
  - vm_compute. reflexivity.
  - reflexivity.
Defined.

(** ** Determinism *)

(** C1. The same file under the same name is given different labels by two
    processes that differ only in the key of the built-in [hash]
    ([PYTHONHASHSEED] 0 and 1): without Pillow, and with Pillow the 50 x 50
    pure green image is given a disease class by the one and a healthy
    class by the other. *)
Theorem C1_label_changes_across_restarts :
  makePrediction (cpython 0 false) disk "/app/static/leaf.jpg"
    = "Tomato___Early_blight"
  ∧ makePrediction (cpython 1 false) disk "/app/static/leaf.jpg"
    = "Tomato___Leaf_Mold"
  ∧ makePrediction (cpython 0 true) disk "/app/static/leaf.jpg"
    = "Squash___Powdery_mildew"
  ∧ makePrediction (cpython 1 true) disk "/app/static/leaf.jpg"
    = "Raspberry___healthy".
Proof. repeat split; vm_compute; reflexivity. Qed.

(** ** The formatter *)

#[local] Arguments Ascii.eqb : simpl never.

Lemma append_cons (c : ascii) (s t : string) :
  String c s +:+ t = String c (s +:+ t).
Proof. reflexivity. Qed.

Lemma append_nil_l (s : string) : "" +:+ s = s.
Proof. reflexivity. Qed.

Lemma append_nil_r (s : string) : s +:+ "" = s.
Proof.
  induction s as [| c s IH]; [done |]. by rewrite append_cons, IH.
Qed.

Lemma append_assoc (a b c : string) : (a +:+ b) +:+ c = a +:+ (b +:+ c).
Proof.
  induction a as [| x a IH]; [done |]. by rewrite !append_cons, IH.
Qed.

Lemma has_char_append (c : ascii) (a b : string) :
  PyStr.has_char c (a +:+ b) = PyStr.has_char c a || PyStr.has_char c b.
Proof.
  induction a as [| x a IH]; [done |].
  rewrite append_cons. simpl. rewrite IH. apply orb_assoc.
Qed.

Lemma lower_char_underscore (c : ascii) :
  Ascii.eqb "_" (PyStr.lower_char c) = Ascii.eqb "_" c.
Proof. ascii_cases c. Qed.

Lemma upper_char_underscore (c : ascii) :
  Ascii.eqb "_" (PyStr.upper_char c) = Ascii.eqb "_" c.
Proof. ascii_cases c. Qed.

Lemma lower_char_idem (c : ascii) :
  PyStr.lower_char (PyStr.lower_char c) = PyStr.lower_char c.
Proof. ascii_cases c. Qed.

Lemma upper_char_idem (c : ascii) :
  PyStr.upper_char (PyStr.upper_char c) = PyStr.upper_char c.
Proof. ascii_cases c. Qed.

Lemma lower_idem (s : string) : PyStr.lower (PyStr.lower s) = PyStr.lower s.
Proof.
  induction s as [| c s IH]; simpl; [done |]. by rewrite lower_char_idem, IH.
Qed.

Lemma capitalize_idem (s : string) :
  PyStr.capitalize (PyStr.capitalize s) = PyStr.capitalize s.
Proof.
  destruct s as [| c s]; simpl; [done |]. by rewrite upper_char_idem, lower_idem.
Qed.

Lemma lower_no_underscore (s : string) :
  no_underscore s → no_underscore (PyStr.lower s).
Proof.
  unfold no_underscore. induction s as [| c s IH]; simpl; [done |].
  rewrite lower_char_underscore. intros H.
  apply orb_false_elim in H as [-> H]. by rewrite IH.
Qed.

Lemma format_word_no_underscore (w : string) :
  no_underscore w → no_underscore (format_word w).
Proof.
  intros Hw. unfold format_word. case_bool_decide.
  - by apply lower_no_underscore.
  - destruct w as [| c w]; [done |]. unfold no_underscore in *. simpl in *.
    rewrite upper_char_underscore.
    apply orb_false_elim in Hw as [-> Hw]. by apply lower_no_underscore.
Qed.

(** *** Replacement *)

(** Replacing a single character is a map over the characters. *)
Lemma replace_underscore_cons (c : ascii) (s : string) :
  PyStr.replace "_" " " (String c s)
  = String (if Ascii.eqb "_" c then " "%char else c) (PyStr.replace "_" " " s).
Proof.
  unfold PyStr.replace. simpl. by destruct (Ascii.eqb "_" c).
Qed.

Lemma replace_underscore_append (a b : string) :
  PyStr.replace "_" " " (a +:+ b)
  = PyStr.replace "_" " " a +:+ PyStr.replace "_" " " b.
Proof.
  induction a as [| c a IH]; [done |].
  rewrite append_cons, !replace_underscore_cons, append_cons. by rewrite IH.
Qed.

Lemma replace_underscore_clean (s : string) :
  no_underscore (PyStr.replace "_" " " s).
Proof.
  unfold no_underscore. induction s as [| c s IH]; [done |].
  rewrite replace_underscore_cons. simpl. rewrite IH.
  destruct (Ascii.eqb "_" c) eqn:Hc; [done | by rewrite Hc].
Qed.

Lemma replace_underscore_id (s : string) :
  no_underscore s → PyStr.replace "_" " " s = s.
Proof.
  unfold no_underscore. induction s as [| c s IH]; [done |].
  simpl. intros H. apply orb_false_elim in H as [Hc H].
  rewrite replace_underscore_cons, Hc. by rewrite IH.
Qed.

(** Text without underscores is copied by the replacement of [___]. *)
Lemma replace_sep_skip (a s : string) :
  no_underscore a →
  PyStr.replace "___" " - " (a +:+ s) = a +:+ PyStr.replace "___" " - " s.
Proof.
  unfold no_underscore. induction a as [| c a IH]; [done |].
  simpl. intros H. apply orb_false_elim in H as [Hc H].
  rewrite !append_cons. unfold PyStr.replace in *. simpl. rewrite Hc. simpl.
  by rewrite IH.
Qed.

(** An occurrence of [___] is replaced, and the scan goes on after it. *)
Lemma replace_sep_here (s : string) :
  PyStr.replace "___" " - " ("___" +:+ s) = " - " +:+ PyStr.replace "___" " - " s.
Proof. reflexivity. Qed.

(** An underscore that does not start a [___] is kept by that replacement. *)
Lemma replace_sep_single (s : string) :
  PyStr.startswith "__" s = false →
  PyStr.replace "___" " - " (String "_" s)
  = String "_" (PyStr.replace "___" " - " s).
Proof.
  intros H. unfold PyStr.replace.
  change (PyStr.replace_from 0 "___" " - " (String "_" s))
    with (if PyStr.startswith "__" s
          then " - " +:+ PyStr.replace_from 2 "___" " - " s
          else String "_" (PyStr.replace_from 0 "___" " - " s)).
  by rewrite H.
Qed.

(** *** Splitting *)

Lemma split_head_word (c : ascii) (s : string) :
  PyStr.isspace c = false → PyStr.split (String c s) ≠ [].
Proof.
  intros Hc. simpl. rewrite Hc. destruct s as [| c' s']; [done |].
  destruct (PyStr.isspace c'); [done |]. by destruct (PyStr.split (String c' s')).
Qed.

Lemma split_cons_cons (c c' : ascii) (s : string) :
  PyStr.split (String c (String c' s))
  = if PyStr.isspace c then PyStr.split (String c' s)
    else if PyStr.isspace c' then String c "" :: PyStr.split (String c' s)
    else match PyStr.split (String c' s) with
         | w :: ws => String c w :: ws
         | [] => [String c ""]
         end.
Proof. reflexivity. Qed.

(** A whitespace character separates the words on its two sides. *)
Lemma split_append_space (sp : ascii) (a b : string) :
  PyStr.isspace sp = true →
  PyStr.split (a +:+ String sp b) = PyStr.split a ++ PyStr.split b.
Proof.
  intros Hsp. induction a as [| c a IH].
  - simpl. by rewrite Hsp.
  - rewrite append_cons. destruct (PyStr.isspace c) eqn:Hc.
    + simpl. rewrite Hc. exact IH.
    + destruct a as [| c' a'].
      * simpl. by rewrite Hc, Hsp.
      * rewrite append_cons in *.
        rewrite (split_cons_cons c c' (a' +:+ String sp b)).
        rewrite (split_cons_cons c c' a'), Hc, IH.
        destruct (PyStr.isspace c') eqn:Hc'; [done |].
        pose proof (split_head_word c' a' Hc') as Hne.
        by destruct (PyStr.split (String c' a')).
Qed.

(** The words of a string are made of its characters. *)
Lemma split_no_underscore (s : string) :
  no_underscore s → Forall no_underscore (PyStr.split s).
Proof.
  unfold no_underscore. induction s as [| c s IH]; [by constructor |].
  intros H. simpl in H. apply orb_false_elim in H as [Hc H].
  specialize (IH H).
  change (PyStr.split (String c s))
    with (if PyStr.isspace c then PyStr.split s
          else match s with
               | EmptyString => [String c EmptyString]
               | String c' _ =>
                   if PyStr.isspace c' then String c EmptyString :: PyStr.split s
                   else match PyStr.split s with
                        | w :: ws => String c w :: ws
                        | [] => [String c EmptyString]
                        end
               end).
  assert (PyStr.has_char "_" (String c "") = false) as Hone
    by (simpl; by rewrite Hc).
  destruct (PyStr.isspace c); [done |].
  destruct s as [| c' s']; [by repeat constructor |].
  destruct (PyStr.isspace c'); [by constructor |].
  destruct (PyStr.split (String c' s')) as [| w ws]; [by repeat constructor |].
  inversion IH as [| ? ? Hw Hws]; subst. constructor; [| done].
  simpl. by rewrite Hc, Hw.
Qed.

Lemma join_no_underscore (ws : list string) :
  Forall no_underscore ws → no_underscore (PyStr.join " " ws).
Proof.
  unfold no_underscore. induction 1 as [| w ws Hw Hws IH]; [done |].
  destruct ws as [| w' ws']; [done |].
  change (PyStr.join " " (w :: w' :: ws'))
    with (w +:+ " " +:+ PyStr.join " " (w' :: ws')).
  rewrite !has_char_append, Hw, IH. reflexivity.
Qed.

(** *** The words of the display string *)

Lemma format_words_clean (a : string) :
  no_underscore a → format_words a = map format_word (PyStr.split a).
Proof.
  intros Ha. unfold format_words.
  rewrite <- (append_nil_r a) at 1.
  rewrite (replace_sep_skip a "" Ha).
  change (PyStr.replace "___" " - " "") with EmptyString.
  by rewrite append_nil_r, (replace_underscore_id a Ha).
Qed.

Lemma format_words_separator (pre post : string) :
  no_underscore pre →
  format_words (pre +:+ "___" +:+ post)
  = format_words pre ++ ["-"] ++ format_words post.
Proof.
  intros Hpre. rewrite (format_words_clean pre Hpre). unfold format_words.
  rewrite (replace_sep_skip pre _ Hpre), replace_sep_here.
  rewrite !replace_underscore_append, (replace_underscore_id pre Hpre).
  change (PyStr.replace "_" " " " - ") with " - ".
  set (rest := PyStr.replace "_" " " (PyStr.replace "___" " - " post)).
  change (" - " +:+ rest) with (String " " ("-" +:+ String " " rest)).
  rewrite !split_append_space by reflexivity.
  by rewrite !map_app.
Qed.

Lemma format_words_underscore (a b : string) :
  no_underscore a → PyStr.startswith "__" b = false →
  format_words (a +:+ String "_" b) = format_words a ++ format_words b.
Proof.
  intros Ha Hb. rewrite (format_words_clean a Ha). unfold format_words.
  rewrite (replace_sep_skip a _ Ha), (replace_sep_single b Hb).
  rewrite replace_underscore_append, (replace_underscore_id a Ha).
  rewrite replace_underscore_cons.
  change (if Ascii.eqb "_" "_" then " "%char else "_"%char) with " "%char.
  rewrite split_append_space by reflexivity.
  by rewrite map_app.
Qed.

Lemma format_word_cased (w : string) :
  format_word w ∈ minor_words ∨ format_word w = PyStr.capitalize (format_word w).
Proof.
  unfold format_word. case_bool_decide; [by left | right].
  by rewrite capitalize_idem.
Qed.

Lemma format_words_cased (s : string) :
  Forall (λ w, w ∈ minor_words ∨ w = PyStr.capitalize w) (format_words s).
Proof.
  unfold format_words. apply Forall_map, Forall_forall. intros w _.
  apply format_word_cased.
Qed.

Lemma format_words_no_underscore (s : string) :
  Forall no_underscore (format_words s).
Proof.
  unfold format_words. apply Forall_map.
  eapply Forall_impl; [apply split_no_underscore, replace_underscore_clean |].
  intros w. apply format_word_no_underscore.
Qed.

Lemma format_prediction_no_underscore (prediction : option string) :
  no_underscore (format_prediction prediction).
Proof.
  destruct prediction as [[| c p] |]; [done | | done].
  apply join_no_underscore, format_words_no_underscore.
Qed.

(** C4, counterexample: on a label with two separators the code replaces
    both, where replacing only the first would leave no dash for the
    second. *)
Lemma C4_counterexample :
  format_prediction (Some "a___b___c") = "A - B - C"
  ∧ format_prediction_first_only (Some "a___b___c") = "A - B C"
  ∧ format_prediction (Some "a___b___c")
    ≠ format_prediction_first_only (Some "a___b___c").
Proof. repeat split; vm_compute; congruence. Qed.

(** C4, amended. For every input of [format_prediction]: [None] and the
    empty string give ["Unknown condition"]; otherwise the display string
    is the list [format_words] joined by single spaces.  That list is
    fixed by three equations: text without underscores gives its
    whitespace-separated words, each formatted; every [___] met scanning
    from the left (not only the first) gives the word [-] between the
    words before it and the words after it; an underscore that does not
    start a [___] separates words like a space.  A word is formatted to
    its lower case when that is one of the ten minor words, whatever its
    position, and to its capitalised form (first character upper case,
    the rest lower case) otherwise.  For ASCII input every word of the
    display string is therefore a minor word in lower case or a
    capitalised word.  No underscore is left, and the function is total. *)
Theorem C4_formatter :
  (format_prediction None = "Unknown condition"
   ∧ format_prediction (Some "") = "Unknown condition")
  ∧ (∀ c p, format_prediction (Some (String c p))
            = PyStr.join " " (format_words (String c p)))
  ∧ (∀ a, no_underscore a →
       format_words a = map format_word (PyStr.split a))
  ∧ (∀ pre post, no_underscore pre →
       format_words (pre +:+ "___" +:+ post)
       = format_words pre ++ ["-"] ++ format_words post)
  ∧ (∀ a b, no_underscore a → PyStr.startswith "__" b = false →
       format_words (a +:+ String "_" b) = format_words a ++ format_words b)
  ∧ (∀ w, PyStr.lower w ∈ minor_words → format_word w = PyStr.lower w)
  ∧ (∀ w, PyStr.lower w ∉ minor_words → format_word w = PyStr.capitalize w)
  ∧ (∀ s, PyStr.isascii s = true →
       Forall (λ w, w ∈ minor_words ∨ w = PyStr.capitalize w) (format_words s))
  ∧ (∀ prediction, no_underscore (format_prediction prediction)).
Proof.
  split; [by split |]. split; [done |].
  split; [apply format_words_clean |].
  split; [apply format_words_separator |].
  split; [apply format_words_underscore |].
  split; [intros w Hw; unfold format_word; by rewrite bool_decide_eq_true_2 |].
  split; [intros w Hw; unfold format_word; by rewrite bool_decide_eq_false_2 |].
  split; [intros s _; apply format_words_cased |].
  apply format_prediction_no_underscore.
Qed.

(** ** The scenarios of the specification *)

Example format_spider_mites :
  format_prediction (Some "Tomato___Spider_mites Two-spotted_spider_mite")
  = "Tomato - Spider Mites Two-spotted Spider Mite".
Proof. vm_compute. reflexivity. Qed.

Example format_gray_leaf_spot :
  format_prediction (Some "Corn_(maize)___Cercospora_leaf_spot Gray_leaf_spot")
  = "Corn (maize) - Cercospora Leaf Spot Gray Leaf Spot".
Proof. vm_compute. reflexivity. Qed.

Example format_minor_words_first :
  format_prediction (Some "OF_the_Leaf") = "of the Leaf".
Proof. vm_compute. reflexivity. Qed.

(** The model of the built-in [hash] against the values CPython 3.11
    prints for [hash(s)] when started with the given [PYTHONHASHSEED]. *)
Example siphash_seed0 : SipHash.str_hash 0 "leaf.jpg" = 1060967708013818115.
Proof. vm_compute. reflexivity. Qed.

Example siphash_seed0_nine : SipHash.str_hash 0 "abcdefghi" = -532774252720507163.
Proof. vm_compute. reflexivity. Qed.

Example siphash_seed1 : SipHash.str_hash 1 "leaf.jpg" = 581529882147971193.
Proof. vm_compute. reflexivity. Qed.

Example siphash_seed2 : SipHash.str_hash 2 "2500" = 2879673257962404146.
Proof. vm_compute. reflexivity. Qed.

Example siphash_seed12345 :
  SipHash.str_hash 12345 "Tomato___healthy" = -4744456078013618995.
Proof. vm_compute. reflexivity. Qed.

Example str_of_int_2500 : PyStr.str_of_int (50 * 50) = "2500".
Proof. vm_compute. reflexivity. Qed.

Example basename_static : PyStr.basename "/app/static/leaf.jpg" = "leaf.jpg".
Proof. vm_compute. reflexivity. Qed.

Example allowed_upper_case : allowed_file "a.b.PNG" = true.
Proof. vm_compute. reflexivity. Qed.

(** * Further properties of the code *)

(** ** File names *)

Lemma ascii_eqb_sym (a b : ascii) : Ascii.eqb a b = Ascii.eqb b a.
Proof.
  destruct (Ascii.eqb_spec a b) as [-> | Hne].
  - by rewrite Ascii.eqb_refl.
  - symmetry. apply Ascii.eqb_neq. congruence.
Qed.

Lemma after_last_none (c : ascii) (s : string) :
  PyStr.has_char c s = false ↔ PyStr.after_last c s = None.
Proof.
  induction s as [| a s IH]; [done |]. simpl.
  rewrite orb_false_iff, IH, (ascii_eqb_sym c a). split.
  - intros [Ha ->]. by rewrite Ha.
  - destruct (PyStr.after_last c s); [done |].
    by destruct (Ascii.eqb a c).
Qed.

Lemma after_last_append (c : ascii) (stem ext : string) :
  PyStr.has_char c ext = false →
  PyStr.after_last c (stem +:+ String c ext) = Some ext.
Proof.
  intros Hext. induction stem as [| a stem IH].
  - rewrite append_nil_l. simpl.
    rewrite (proj1 (after_last_none c ext) Hext). by rewrite Ascii.eqb_refl.
  - rewrite append_cons. simpl. by rewrite IH.
Qed.

Lemma after_last_clean (c : ascii) (s t : string) :
  PyStr.after_last c s = Some t → PyStr.has_char c t = false.
Proof.
  revert t. induction s as [| a s IH]; [done |]. simpl. intros t.
  destruct (PyStr.after_last c s) as [u |] eqn:Hu.
  - intros [= <-]. by apply IH.
  - destruct (Ascii.eqb a c); [| done]. intros [= <-].
    by apply after_last_none.
Qed.

(** The suffix that follows a string without [c] is cut at the same
    place. *)
Lemma after_last_tail (c : ascii) (a t : string) :
  PyStr.has_char c t = false →
  PyStr.after_last c (a +:+ t) = (λ u, u +:+ t) <$> PyStr.after_last c a.
Proof.
  intros Ht. induction a as [| x a IH].
  - rewrite append_nil_l. by apply after_last_none.
  - rewrite append_cons. simpl. rewrite IH.
    destruct (PyStr.after_last c a); [done |]. simpl.
    by destruct (Ascii.eqb x c).
Qed.

Lemma allowed_extension_clean (e : string) :
  e ∈ ALLOWED_EXTENSIONS →
  PyStr.lower e = e ∧ PyStr.has_char "." e = false
  ∧ PyStr.has_char "/" e = false.
Proof.
  unfold ALLOWED_EXTENSIONS. rewrite !elem_of_cons.
  intros [-> | [-> | [-> | [-> | H]]]]; [done .. | by apply elem_of_nil in H].
Qed.

Lemma allowed_file_stem_ext (stem ext : string) :
  PyStr.has_char "." ext = false →
  allowed_file (stem +:+ String "." ext) = true
  ↔ PyStr.lower ext ∈ ALLOWED_EXTENSIONS.
Proof.
  intros Hext. unfold allowed_file.
  rewrite (after_last_append "." stem ext Hext). apply bool_decide_eq_true.
Qed.

(** X1. [allowed_file] looks at nothing but what follows the last dot: a
    name without a dot is refused, and [stem.ext], where [ext] has no dot,
    is accepted exactly when [ext] in lower case is png, jpg, jpeg or gif,
    whatever [stem] is (the empty stem included). *)
Theorem allowed_file_by_extension (stem ext : string) :
  PyStr.has_char "." ext = false →
  allowed_file ext = false
  ∧ (allowed_file (stem +:+ String "." ext) = true
     ↔ PyStr.lower ext ∈ ALLOWED_EXTENSIONS).
Proof.
  intros Hext. unfold allowed_file. split.
  - by rewrite (proj1 (after_last_none "." ext) Hext).
  - fold (allowed_file (stem +:+ String "." ext)).
    by apply allowed_file_stem_ext.
Qed.

(** X1 at the name [.PNG]. *)
Lemma allowed_file_by_extension_witness :
  allowed_file "PNG" = false
  ∧ (allowed_file ("" +:+ String "." "PNG") = true
     ↔ PyStr.lower "PNG" ∈ ALLOWED_EXTENSIONS).
Proof. apply (allowed_file_by_extension "" "PNG"). reflexivity. Defined.

Lemma image_folder_shape rt :
  ∃ a, IMAGE_FOLDER rt = a +:+ "static".
Proof.
  unfold IMAGE_FOLDER, os_path_join. change (PyStr.startswith "/" "static") with false.
  cbv iota. destruct (_ || _).
  - by exists (cwd rt).
  - exists (cwd rt +:+ "/"). by rewrite append_assoc.
Qed.

Lemma append_eq_nil (a b : string) : a +:+ b = "" → a = "" ∧ b = "".
Proof. by destruct a. Qed.

(** A generated name is stored directly in the image folder. *)
Lemma stored_location rt (name : string) :
  PyStr.startswith "/" name = false →
  os_path_join (IMAGE_FOLDER rt) name = IMAGE_FOLDER rt +:+ "/" +:+ name.
Proof.
  intros Hname. unfold os_path_join. rewrite Hname.
  destruct (image_folder_shape rt) as [a Ha].
  rewrite bool_decide_eq_false_2.
  2:{ rewrite Ha. intros H. by apply append_eq_nil in H as [_ ?]. }
  rewrite bool_decide_eq_false_2; [done |].
  rewrite Ha, (after_last_tail "/" a "static") by reflexivity.
  destruct (PyStr.after_last "/" a) as [u |]; [| done]. simpl.
  intros [= H]. by apply append_eq_nil in H as [_ ?].
Qed.

(** X2. For a name [allowed_file] accepts, [generate_unique_filename]
    raises nothing and returns [plant_<timestamp>_<id>.<e>] with [e] one of
    png, jpg, jpeg, gif: of the client's name only the extension survives,
    in lower case.  The generated name is accepted by [allowed_file] again,
    and it is stored as [IMAGE_FOLDER/<name>]. *)
Theorem generated_name_is_safe rt (timestamp unique_id filename : string) :
  allowed_file filename = true →
  ∃ e, e ∈ ALLOWED_EXTENSIONS
       ∧ generate_unique_filename timestamp unique_id filename
         = Return ("plant_" +:+ timestamp +:+ "_" +:+ unique_id +:+ "." +:+ e)
       ∧ allowed_file ("plant_" +:+ timestamp +:+ "_" +:+ unique_id +:+ "." +:+ e)
         = true
       ∧ os_path_join (IMAGE_FOLDER rt)
           ("plant_" +:+ timestamp +:+ "_" +:+ unique_id +:+ "." +:+ e)
         = IMAGE_FOLDER rt +:+ "/" +:+
           ("plant_" +:+ timestamp +:+ "_" +:+ unique_id +:+ "." +:+ e).
Proof.
  intros Ha. unfold allowed_file in Ha. unfold generate_unique_filename.
  destruct (PyStr.after_last "." filename) as [ext |]; [| done].
  apply bool_decide_eq_true in Ha.
  destruct (allowed_extension_clean _ Ha) as (Hlow & Hdot & _).
  exists (PyStr.lower ext). split; [done |]. split; [done |]. split.
  - rewrite <- !append_assoc. rewrite (append_assoc _ "." _).
    change ("." +:+ PyStr.lower ext) with (String "." (PyStr.lower ext)).
    apply (allowed_file_stem_ext _ _ Hdot). by rewrite Hlow.
  - by apply stored_location.
Qed.

(** X2 at the upload name [My Leaf.JPG]. *)
Lemma generated_name_is_safe_witness :
  ∃ e, e ∈ ALLOWED_EXTENSIONS
       ∧ generate_unique_filename "20240101_120000" "0a1b2c3d" "My Leaf.JPG"
         = Return ("plant_" +:+ "20240101_120000" +:+ "_" +:+ "0a1b2c3d" +:+ "." +:+ e)
       ∧ allowed_file ("plant_" +:+ "20240101_120000" +:+ "_" +:+ "0a1b2c3d" +:+ "." +:+ e)
         = true
       ∧ os_path_join (IMAGE_FOLDER (cpython 0 true))
           ("plant_" +:+ "20240101_120000" +:+ "_" +:+ "0a1b2c3d" +:+ "." +:+ e)
         = IMAGE_FOLDER (cpython 0 true) +:+ "/" +:+
           ("plant_" +:+ "20240101_120000" +:+ "_" +:+ "0a1b2c3d" +:+ "." +:+ e).
Proof.
  apply (generated_name_is_safe (cpython 0 true)). vm_compute. reflexivity.
Defined.

(** ** The two class lists *)

(** X3. The two comprehensions of [mock_prediction] split any class list in
    two: every class is in the healthy list or in the disease list, and
    none is in both.  For the 38 classes of [makePrediction] the healthy
    list has 12 elements and the disease list 26. *)
Theorem healthy_disease_partition (cls : list string) (c : string) :
  (c ∈ cls ↔ c ∈ healthy_of cls ∨ c ∈ disease_of cls)
  ∧ ¬ (c ∈ healthy_of cls ∧ c ∈ disease_of cls)
  ∧ length (healthy_of classes) = 12%nat
  ∧ length (disease_of classes) = 26%nat.
Proof.
  unfold healthy_of, disease_of. rewrite !list_elem_of_In, !filter_In.
  split; [| split; [| split; vm_compute; reflexivity]].
  - destruct (is_healthy c); simpl; intuition congruence.
  - destruct (is_healthy c); simpl; intuition congruence.
Qed.

Lemma healthy_not_disease (cls : list string) (c : string) :
  c ∈ healthy_of cls → c ∈ disease_of cls → False.
Proof.
  unfold healthy_of, disease_of. rewrite !list_elem_of_In, !filter_In.
  destruct (is_healthy c); simpl; intuition congruence.
Qed.

(** ** What [makePrediction] can return *)

Lemma sentinels_not_healthy (s : string) : s ∈ sentinels → is_healthy s = false.
Proof.
  unfold sentinels. rewrite !elem_of_cons.
  intros [-> | [-> | [-> | [-> | H]]]]; [done .. | by apply elem_of_nil in H].
Qed.

Lemma sentinels_error (s : string) : s ∈ sentinels → is_error s = true.
Proof.
  unfold sentinels. rewrite !elem_of_cons.
  intros [-> | [-> | [-> | [-> | H]]]]; [done .. | by apply elem_of_nil in H].
Qed.

Lemma makePrediction_range rt (fs : gmap string File) (path : string) :
  makePrediction rt fs path ∈ classes ∨ makePrediction rt fs path ∈ sentinels.
Proof.
  destruct (fs !! path) as [f |] eqn:Hf.
  2:{ right. rewrite (makePrediction_missing rt fs path Hf).
      unfold sentinels. rewrite !elem_of_cons. auto. }
  destruct (HAS_PIL rt) eqn:Hpil.
  2:{ left. by destruct (makePrediction_no_pil rt fs path f Hf Hpil). }
  destruct (image f) as [[[fmt [w h]] [px | e]] |] eqn:Himg.
  - rewrite (makePrediction_decoded rt fs path f fmt w h px Hf Hpil Himg).
    destruct ((w <? 50) || (h <? 50)).
    { right. unfold sentinels. rewrite !elem_of_cons. auto. }
    destruct ((w >? 5000) || (h >? 5000)).
    { right. unfold sentinels. rewrite !elem_of_cons. auto. }
    left. apply mock_prediction_in_classes.
  - right. rewrite (makePrediction_undecodable rt fs path f Hf Hpil); [| right; eauto].
    unfold sentinels. rewrite !elem_of_cons. auto.
  - right. rewrite (makePrediction_undecodable rt fs path f Hf Hpil); [| by left].
    unfold sentinels. rewrite !elem_of_cons. auto.
Qed.

(** X4. For every process, file system and path, [makePrediction] returns
    one of the 38 classes or one of four sentinels (file not found, invalid
    image format, too small, too large).  The message of its outer
    [except] clause, ["Error: Analysis failed"], is never returned. *)
Theorem makePrediction_results rt (fs : gmap string File) (path : string) :
  (makePrediction rt fs path ∈ classes ∨ makePrediction rt fs path ∈ sentinels)
  ∧ makePrediction rt fs path ≠ "Error: Analysis failed".
Proof.
  split; [apply makePrediction_range |].
  intros Heq. destruct (makePrediction_range rt fs path) as [H | H];
    rewrite Heq in H.
  - apply classes_not_error in H. discriminate H.
  - unfold sentinels in H. rewrite !elem_of_cons in H.
    destruct H as [H | [H | [H | [H | H]]]]; try discriminate H.
    by apply elem_of_nil in H.
Qed.

(** ** The mock confidence *)

Lemma confidence_bounds rt (prediction : string) :
  if is_healthy prediction
  then 85 <= calculate_mock_confidence rt prediction <= 99
  else 70 <= calculate_mock_confidence rt prediction <= 94.
Proof.
  unfold calculate_mock_confidence, is_healthy.
  pose proof (Z.mod_pos_bound (hash rt prediction) 15 eq_refl).
  pose proof (Z.mod_pos_bound (hash rt prediction) 25 eq_refl).
  destruct (PyStr.contains "healthy" (PyStr.lower prediction)); lia.
Qed.

(** X5. Whatever the built-in hash returns, negative values included,
    [calculate_mock_confidence] lies in 85..99 for a prediction that
    contains "healthy" (in any case) and in 70..94 for any other string;
    so it is always between 70 and 99. *)
Theorem calculate_mock_confidence_range rt (prediction : string) :
  (if is_healthy prediction
   then 85 <= calculate_mock_confidence rt prediction <= 99
   else 70 <= calculate_mock_confidence rt prediction <= 94)
  ∧ 70 <= calculate_mock_confidence rt prediction <= 99.
Proof.
  pose proof (confidence_bounds rt prediction) as H.
  split; [done |]. destruct (is_healthy prediction); lia.
Qed.

(** X6. A sentinel returned by [makePrediction] is given a confidence like
    a disease: between 70 and 94. *)
Theorem sentinel_confidence rt (fs : gmap string File) (path : string) :
  is_error (makePrediction rt fs path) = true →
  70 <= calculate_mock_confidence rt (makePrediction rt fs path) <= 94.
Proof.
  intros He. pose proof (confidence_bounds rt (makePrediction rt fs path)) as Hb.
  destruct (makePrediction_range rt fs path) as [H | H].
  - apply classes_not_error in H. congruence.
  - by rewrite (sentinels_not_healthy _ H) in Hb.
Qed.

(** X6 at the 49 x 49 image. *)
Lemma sentinel_confidence_witness :
  70 <= calculate_mock_confidence (cpython 0 true)
          (makePrediction (cpython 0 true) disk "/app/static/small.png") <= 94.
Proof.
  apply (sentinel_confidence (cpython 0 true) disk "/app/static/small.png").
  vm_compute. reflexivity.
Defined.

(** ** The order of the dimension checks *)

(** X7. With Pillow, for a file that decodes to an image, the too-small
    check comes first: the answer is the too-small sentinel exactly when
    the width or the height is below 50, even if the other side exceeds
    5000; it is the too-large sentinel exactly when both are at least 50
    and one exceeds 5000. *)
Theorem small_before_large rt (fs : gmap string File) (path : string)
    f fmt w h px :
  HAS_PIL rt = true →
  fs !! path = Some f →
  image f = Some (fmt, (w, h), Return px) →
  (makePrediction rt fs path = "Error: Image too small for analysis"
     ↔ w < 50 ∨ h < 50)
  ∧ (makePrediction rt fs path = "Error: Image too large for analysis"
     ↔ 50 <= w ∧ 50 <= h ∧ (w > 5000 ∨ h > 5000)).
Proof.
  intros Hpil Hf Himg.
  rewrite (makePrediction_decoded rt fs path f fmt w h px Hf Hpil Himg).
  pose proof (classes_not_error _ (mock_prediction_in_classes rt
                (Image.mk None None (w, h) (Return px)))) as Hne.
  destruct ((w <? 50) || (h <? 50)) eqn:Hs.
  { apply orb_true_iff in Hs. rewrite !Z.ltb_lt in Hs.
    split; [done |]. split; [done | lia]. }
  apply orb_false_elim in Hs as [Hs1 Hs2].
  apply Z.ltb_ge in Hs1. apply Z.ltb_ge in Hs2.
  destruct ((w >? 5000) || (h >? 5000)) eqn:Hl.
  { apply orb_true_iff in Hl. rewrite !Z.gtb_gt in Hl.
    split; [split; [done | lia] | done]. }
  apply orb_false_elim in Hl as [Hl1 Hl2].
  assert (¬ w > 5000 ∧ ¬ h > 5000) as [? ?].
  { split; intros ?%Z.gtb_gt; congruence. }
  split; (split; [intros Heq; rewrite Heq in Hne; discriminate Hne | lia]).
Qed.

(** X7 at the 49 x 49 image. *)
Lemma small_before_large_witness :
  makePrediction (cpython 0 true) disk "/app/static/small.png"
    = "Error: Image too small for analysis"
  ↔ 49 < 50 ∨ 49 < 50.
Proof.
  refine (proj1 (small_before_large (cpython 0 true) disk "/app/static/small.png"
                   small_49 "PNG" 49 49 (repeat (10, 200, 10) 2401) _ _ _));
    vm_compute; reflexivity.
Defined.

(** ** What the label depends on in the degraded paths *)

Lemma mock_prediction_key rt img img' (cls : list string) :
  HAS_NUMPY rt = false → hash_key img = hash_key img' →
  mock_prediction rt img cls = mock_prediction rt img' cls.
Proof.
  intros Hnp Hkey. unfold mock_prediction, mock_prediction_body.
  destruct (Image.size img) as [w h]. destruct (Image.size img') as [w' h'].
  by rewrite Hnp, Hkey.
Qed.

(** X8. With Pillow but without NumPy the label of a valid image is a
    function of its number of pixels alone: two files that decode to
    images of width and height in 50..5000 with the same product
    width x height are given the same label, whatever their names, their
    pixels and their formats. *)
Theorem label_from_pixel_count rt (fs1 fs2 : gmap string File)
    (p1 p2 : string) f1 f2 fmt1 fmt2 w1 h1 w2 h2 px1 px2 :
  HAS_PIL rt = true → HAS_NUMPY rt = false →
  fs1 !! p1 = Some f1 → image f1 = Some (fmt1, (w1, h1), Return px1) →
  fs2 !! p2 = Some f2 → image f2 = Some (fmt2, (w2, h2), Return px2) →
  50 <= w1 <= 5000 → 50 <= h1 <= 5000 →
  50 <= w2 <= 5000 → 50 <= h2 <= 5000 →
  w1 * h1 = w2 * h2 →
  makePrediction rt fs1 p1 = makePrediction rt fs2 p2.
Proof.
  intros Hpil Hnp Hf1 Hi1 Hf2 Hi2 Hw1 Hh1 Hw2 Hh2 Hprod.
  rewrite (makePrediction_decoded rt fs1 p1 f1 fmt1 w1 h1 px1 Hf1 Hpil Hi1).
  rewrite (makePrediction_decoded rt fs2 p2 f2 fmt2 w2 h2 px2 Hf2 Hpil Hi2).
  destruct (in_range_tests w1 h1 Hw1 Hh1) as [-> ->].
  destruct (in_range_tests w2 h2 Hw2 Hh2) as [-> ->].
  apply mock_prediction_key; [done |].
  unfold hash_key. simpl. by rewrite Hprod.
Qed.

(** X8 at the pure green image and the image of colour (5, 6, 0), both
    50 x 50. *)
Lemma label_from_pixel_count_witness :
  makePrediction (cpython 0 true) disk "/app/static/leaf.jpg"
  = makePrediction (cpython 0 true) disk "/app/static/olive.png".
Proof.
  apply (label_from_pixel_count (cpython 0 true) disk disk _ _
           green_50 olive_50 "PNG" "PNG" 50 50 50 50
           green_pixels (repeat (5, 6, 0) 2500));
    first [lia | vm_compute; reflexivity].
Defined.

(** X9. Without Pillow the label of an existing file is a function of the
    base name of its path alone: two existing paths with the same base
    name are given the same label, whatever the files contain. *)
Theorem label_from_basename rt (fs1 fs2 : gmap string File)
    (p1 p2 : string) f1 f2 :
  HAS_PIL rt = false →
  fs1 !! p1 = Some f1 → fs2 !! p2 = Some f2 →
  PyStr.basename p1 = PyStr.basename p2 →
  makePrediction rt fs1 p1 = makePrediction rt fs2 p2.
Proof.
  intros Hpil Hf1 Hf2 Hb.
  destruct (makePrediction_no_pil rt fs1 p1 f1 Hf1 Hpil) as [H1 _].
  destruct (makePrediction_no_pil rt fs2 p2 f2 Hf2 Hpil) as [H2 _].
  rewrite Hb in H1. congruence.
Qed.

(** X9 at one image file and one file that holds no image. *)
Lemma label_from_basename_witness :
  makePrediction (cpython 0 false) {[ "/a/leaf.jpg" := green_50 ]} "/a/leaf.jpg"
  = makePrediction (cpython 0 false) {[ "/b/c/leaf.jpg" := text_file ]} "/b/c/leaf.jpg".
Proof.
  apply (label_from_basename (cpython 0 false) _ _ _ _ green_50 text_file);
    vm_compute; reflexivity.
Defined.

Lemma mod4_mod12 (h : Z) :
  h mod 4 = 0 → h mod 12 = 0 ∨ h mod 12 = 4 ∨ h mod 12 = 8.
Proof. Z.to_euclidean_division_equations. lia. Qed.

Lemma healthy_classes_list :
  healthy_of classes =
  ["Apple___healthy"; "Blueberry___healthy";
   "Cherry_(including_sour)___healthy"; "Corn_(maize)___healthy";
   "Grape___healthy"; "Peach___healthy"; "Pepper,_bell___healthy";
   "Potato___healthy"; "Raspberry___healthy"; "Soybean___healthy";
   "Strawberry___healthy"; "Tomato___healthy"].
Proof. vm_compute. reflexivity. Qed.

Lemma mock_prediction_no_numpy_healthy rt img (cls : list string) :
  HAS_NUMPY rt = false → healthy_of cls ≠ [] →
  Z.abs (hash rt (hash_key img)) mod 4 = 0 →
  mock_prediction_body rt img cls
  = getitem (healthy_of cls)
      (Z.abs (hash rt (hash_key img)) mod Z.of_nat (length (healthy_of cls))).
Proof.
  intros Hnp Hh H4. unfold mock_prediction_body.
  destruct (Image.size img) as [w h].
  rewrite Hnp. cbv zeta. rewrite H4, (proj2 (nonempty_spec _) Hh). reflexivity.
Qed.

Lemma mock_prediction_reachable rt img :
  HAS_NUMPY rt = false →
  mock_prediction rt img classes ∈ healthy_of classes →
  mock_prediction rt img classes ∈ reachable_healthy.
Proof.
  intros Hnp Hin.
  destruct (Z.eq_dec (Z.abs (hash rt (hash_key img)) mod 4) 0) as [H4 | H4].
  - unfold mock_prediction.
    rewrite (mock_prediction_no_numpy_healthy rt img classes Hnp
               healthy_classes_nonempty H4).
    rewrite healthy_classes_list.
    change (Z.of_nat (length _)) with 12.
    unfold reachable_healthy. rewrite !elem_of_cons.
    destruct (mod4_mod12 _ H4) as [-> | [-> | ->]]; simpl; auto.
  - exfalso. apply (healthy_not_disease classes _ Hin).
    by apply (mock_prediction_no_numpy rt img Hnp).
Qed.

(** X10. Without NumPy only three of the twelve healthy classes can be
    returned.  The healthy branch is taken when the hash is 0 modulo 4 and
    indexes the twelve healthy classes with the same hash modulo 12, which
    is then 0, 4 or 8: a healthy label of [makePrediction] is
    Apple___healthy, Grape___healthy or Raspberry___healthy. *)
Theorem healthy_labels_without_numpy rt (fs : gmap string File) (path : string) :
  HAS_PIL rt = true → HAS_NUMPY rt = false →
  makePrediction rt fs path ∈ healthy_of classes →
  makePrediction rt fs path ∈ reachable_healthy.
Proof.
  intros Hpil Hnp Hin.
  assert (is_error (makePrediction rt fs path) = false) as Hne
    by (apply classes_not_error, healthy_of_subset, Hin).
  destruct (fs !! path) as [f |] eqn:Hf.
  2:{ rewrite (makePrediction_missing rt fs path Hf) in Hne. discriminate Hne. }
  destruct (image f) as [[[fmt [w h]] [px | e]] |] eqn:Himg.
  - rewrite (makePrediction_decoded rt fs path f fmt w h px Hf Hpil Himg) in *.
    destruct ((w <? 50) || (h <? 50)); [discriminate Hne |].
    destruct ((w >? 5000) || (h >? 5000)); [discriminate Hne |].
    by apply mock_prediction_reachable.
  - rewrite (makePrediction_undecodable rt fs path f Hf Hpil) in Hne;
      [discriminate Hne | right; eauto].
  - rewrite (makePrediction_undecodable rt fs path f Hf Hpil) in Hne;
      [discriminate Hne | by left].
Qed.

(** X10 in the process with hash seed 1, where the 50 x 50 image is given
    a healthy class. *)
Lemma healthy_labels_without_numpy_witness :
  makePrediction (cpython 1 true) disk "/app/static/leaf.jpg" ∈ reachable_healthy.
Proof.
  apply (healthy_labels_without_numpy (cpython 1 true) disk "/app/static/leaf.jpg");
    [reflexivity | reflexivity |].
  apply list_elem_of_In. vm_compute. tauto.
Defined.

(** ** [validate_image] *)

Lemma format_test_true (fmt : string) :
  fmt ∈ accepted_formats →
  bool_decide (Some fmt ∈ [Some "JPEG"; Some "PNG"; Some "GIF"]) = true.
Proof.
  intros Hin. apply bool_decide_eq_true_2.
  unfold accepted_formats in Hin. rewrite !elem_of_cons in *.
  destruct Hin as [-> | [-> | [-> | Hin]]]; auto.
  by apply elem_of_nil in Hin.
Qed.

Lemma validate_image_accepts rt (fs : gmap string File) (path : string) :
  fst (validate_image rt fs path) = true
  ↔ ∃ f fmt w h px,
      fs !! path = Some f ∧ st_size f <= 16 * 1024 * 1024
      ∧ HAS_PIL rt = true ∧ image f = Some (fmt, (w, h), px)
      ∧ fmt ∈ accepted_formats ∧ 50 <= w <= 5000 ∧ 50 <= h <= 5000.
Proof.
  unfold validate_image, os_path_getsize, Image_open, os_path_exists.
  destruct (fs !! path) as [f |] eqn:Hf.
  2:{ rewrite bool_decide_eq_false_2 by (by intros [? ?]). simpl.
      split; [done | by intros (? & ? & ? & ? & ? & ? & _)]. }
  rewrite bool_decide_eq_true_2 by eauto. simpl.
  destruct (Z.gtb_spec (st_size f) (16 * 1024 * 1024)) as [Hbig | Hsz]; simpl.
  { split; [done |]. intros (? & ? & ? & ? & ? & [= <-] & ? & _). lia. }
  destruct (HAS_PIL rt) eqn:Hpil; simpl.
  2:{ split; [done |]. by intros (? & ? & ? & ? & ? & _ & _ & ? & _). }
  destruct (image f) as [[[fmt [w h]] px] |] eqn:Himg; simpl.
  2:{ split; [done |]. intros (? & ? & ? & ? & ? & [= <-] & _ & _ & ? & _).
      congruence. }
  destruct (decide (fmt ∈ accepted_formats)) as [Hfmt | Hfmt].
  2:{ rewrite (format_test fmt Hfmt). simpl. split; [done |].
      intros (? & ? & ? & ? & ? & [= <-] & _ & _ & Hi & ? & _).
      rewrite Himg in Hi. by injection Hi as <- <- <- <-. }
  rewrite (format_test_true fmt Hfmt). simpl.
  destruct ((w <? 50) || (h <? 50)) eqn:Hs; simpl.
  { apply orb_true_iff in Hs. rewrite !Z.ltb_lt in Hs. split; [done |].
    intros (? & ? & ? & ? & ? & [= <-] & _ & _ & Hi & _ & ? & ?).
    rewrite Himg in Hi. injection Hi as <- <- <- <-. lia. }
  apply orb_false_elim in Hs as [Hs1 Hs2].
  apply Z.ltb_ge in Hs1. apply Z.ltb_ge in Hs2.
  destruct ((w >? 5000) || (h >? 5000)) eqn:Hl; simpl.
  { apply orb_true_iff in Hl. rewrite !Z.gtb_gt in Hl. split; [done |].
    intros (? & ? & ? & ? & ? & [= <-] & _ & _ & Hi & _ & ? & ?).
    rewrite Himg in Hi. injection Hi as <- <- <- <-. lia. }
  apply orb_false_elim in Hl as [Hl1 Hl2].
  assert (¬ w > 5000 ∧ ¬ h > 5000) as [? ?].
  { split; intros ?%Z.gtb_gt; congruence. }
  split; [intros _ | done].
  exists f, fmt, w, h, px. repeat split; try done; lia.
Qed.

Lemma validate_image_message rt (fs : gmap string File) (path : string) :
  fst (validate_image rt fs path) = true →
  validate_image rt fs path = (true, "Image is valid").
Proof.
  unfold validate_image, os_path_getsize.
  destruct (os_path_exists fs path); simpl; [| done].
  destruct (fs !! path); simpl; [| done].
  destruct (_ >? _); simpl; [done |].
  destruct (Image_open rt fs path) as [img | e]; simpl; [| done].
  destruct (negb _); simpl; [done |].
  destruct (Image.size img) as [w h].
  destruct (_ || _); [done |]. by destruct (_ || _).
Qed.

(** X11. [validate_image] answers [True] exactly when the file exists, is
    at most 16 MiB long, Pillow is available and identifies in it an image
    of format JPEG, PNG or GIF whose width and height lie in 50..5000; the
    message is then ["Image is valid"].  The pixel data is not loaded, so
    whether it can be is not part of the verdict.  Without Pillow every
    existing file of at most 16 MiB is refused with the message of the
    [NameError]. *)
Theorem validate_image_verdict rt (fs : gmap string File) (path : string) :
  (fst (validate_image rt fs path) = true
   ↔ ∃ f fmt w h px,
       fs !! path = Some f ∧ st_size f <= 16 * 1024 * 1024
       ∧ HAS_PIL rt = true ∧ image f = Some (fmt, (w, h), px)
       ∧ fmt ∈ accepted_formats ∧ 50 <= w <= 5000 ∧ 50 <= h <= 5000)
  ∧ (fst (validate_image rt fs path) = true →
     validate_image rt fs path = (true, "Image is valid"))
  ∧ (∀ f, HAS_PIL rt = false → fs !! path = Some f →
          st_size f <= 16 * 1024 * 1024 →
          validate_image rt fs path
          = (false, "Image validation failed: name 'Image' is not defined")).
Proof.
  split; [apply validate_image_accepts |].
  split; [apply validate_image_message |].
  intros f Hpil Hf Hsz. unfold validate_image, os_path_getsize, Image_open.
  rewrite (exists_true fs path f Hf), Hf, Hpil. simpl.
  destruct (Z.gtb_spec (st_size f) (16 * 1024 * 1024)) as [? | _]; [lia | done].
Qed.

(** X12. A file [validate_image] accepts is given a taxonomy label by
    [makePrediction] when its pixel data loads, and the sentinel
    ["Error: Invalid image format"] when it does not: acceptance does not
    protect from that sentinel. *)
Theorem validated_then_predicted rt (fs : gmap string File) (path : string)
    f fmt dims px :
  fst (validate_image rt fs path) = true →
  fs !! path = Some f →
  image f = Some (fmt, dims, px) →
  match px with
  | Return _ => makePrediction rt fs path ∈ classes
  | Raise _ => makePrediction rt fs path = "Error: Invalid image format"
  end.
Proof.
  intros Hv Hf Himg.
  apply validate_image_accepts in Hv
    as (f' & fmt' & w & h & px' & Hf' & _ & Hpil & Himg' & _ & Hw & Hh).
  assert (f' = f) as -> by congruence.
  rewrite Himg in Himg'. injection Himg' as -> -> ->.
  destruct px' as [pixels | e].
  - rewrite (makePrediction_decoded rt fs path f fmt' w h pixels Hf Hpil Himg).
    destruct (in_range_tests w h Hw Hh) as [-> ->].
    apply mock_prediction_in_classes.
  - apply (makePrediction_undecodable rt fs path f Hf Hpil). right. eauto.
Qed.

(** X12 at the 50 x 50 pure green image. *)
Lemma validated_then_predicted_witness :
  makePrediction (cpython 0 true) disk "/app/static/leaf.jpg" ∈ classes.
Proof.
  apply (validated_then_predicted (cpython 0 true) disk "/app/static/leaf.jpg"
           green_50 "PNG" (50, 50) (Return green_pixels));
    vm_compute; reflexivity.
Defined.

(** ** [actual_prediction] *)

Lemma mock_prediction_empty rt img :
  (mock_prediction rt img [] = "Unknown"
   ∨ mock_prediction rt img [] = "Tomato___healthy")
  ∧ (HAS_NUMPY rt = false → mock_prediction rt img [] = "Unknown").
Proof.
  unfold mock_prediction, mock_prediction_body, np_array.
  destruct (Image.size img) as [w h].
  destruct (HAS_NUMPY rt).
  - split; [| done].
    destruct (Image.pixels img) as [px | e]; [| by right]. cbn [mbind Py_bind].
    destruct (np_std rt px) as [sd | e]; [| by right]. cbn [mbind Py_bind].
    destruct (np_mean px) as [[m0 m1] m2].
    change (healthy_of []) with (@nil string).
    rewrite andb_false_r. by left.
  - change (healthy_of []) with (@nil string). cbv zeta.
    rewrite andb_false_r. split; [by left | done].
Qed.

(** X13. Without NumPy, [actual_prediction] never selects a class.  It
    returns ["Unknown"] for every existing file in which Pillow identifies
    an image, whatever the image shows, and ["Error: Prediction failed"]
    in every other case: Pillow is missing, the file does not exist, or no
    image is identified in it. *)
Theorem actual_prediction_results rt (fs : gmap string File) (img_path : string) :
  HAS_NUMPY rt = false →
  (HAS_PIL rt = true ∧ (∃ f, fs !! img_path = Some f ∧ is_Some (image f)) →
   actual_prediction rt fs img_path = "Unknown")
  ∧ (¬ (HAS_PIL rt = true ∧ ∃ f, fs !! img_path = Some f ∧ is_Some (image f)) →
     actual_prediction rt fs img_path = "Error: Prediction failed").
Proof.
  intros Hnp. unfold actual_prediction, Image_open.
  destruct (HAS_PIL rt); simpl.
  2:{ split; [by intros [? _] | done]. }
  destruct (fs !! img_path) as [f |]; simpl.
  2:{ split; [by intros [_ (? & ? & _)] | done]. }
  destruct (image f) as [[[fmt dims] px] |] eqn:Himg; simpl.
  - split.
    + intros _. apply (proj2 (mock_prediction_empty rt _) Hnp).
    + intros Hn. exfalso. apply Hn. split; [done |].
      exists f. rewrite Himg. eauto.
  - split; [| done]. intros [_ (f' & [= <-] & [? Hs])]. congruence.
Qed.

(** X13 at the 50 x 50 pure green image. *)
Lemma actual_prediction_results_witness :
  actual_prediction (cpython 0 true) disk "/app/static/leaf.jpg" = "Unknown".
Proof.
  refine (proj1 (actual_prediction_results (cpython 0 true) disk
                   "/app/static/leaf.jpg" _) _).
  - reflexivity.
  - split; [reflexivity |]. exists green_50.
    split; [vm_compute; reflexivity | by eexists].
Defined.

(** ** The two upload routes *)

Lemma makePrediction_found rt (fs : gmap string File) (path : string) f :
  fs !! path = Some f →
  makePrediction rt fs path ≠ "Error: Image file not found".
Proof.
  intros Hf Heq.
  destruct (HAS_PIL rt) eqn:Hpil.
  2:{ destruct (makePrediction_no_pil rt fs path f Hf Hpil) as [_ Hin].
      rewrite Heq in Hin. apply classes_not_error in Hin. discriminate Hin. }
  destruct (image f) as [[[fmt [w h]] [px | e]] |] eqn:Himg.
  - rewrite (makePrediction_decoded rt fs path f fmt w h px Hf Hpil Himg) in Heq.
    destruct ((w <? 50) || (h <? 50)); [discriminate Heq |].
    destruct ((w >? 5000) || (h >? 5000)); [discriminate Heq |].
    pose proof (classes_not_error _ (mock_prediction_in_classes rt
                  (Image.mk None None (w, h) (Return px)))) as Hne.
    rewrite Heq in Hne. discriminate Hne.
  - rewrite (makePrediction_undecodable rt fs path f Hf Hpil) in Heq;
      [discriminate Heq | right; eauto].
  - rewrite (makePrediction_undecodable rt fs path f Hf Hpil) in Heq;
      [discriminate Heq | by left].
Qed.


(** The three ways both routes can go on a POST: the upload is stored and
    predicted; the checks pass and saving fails, leaving at most a
    part-written file at the destination; or the request is turned down
    before anything is written. *)
Lemma upload_outcome rt (timestamp unique_id : string)
    (fs : gmap string File) (request : Request) :
  (∃ img ext,
     files_img request = Some img
     ∧ PyStr.after_last "." (up_filename img) = Some ext
     ∧ let name := "plant_" +:+ timestamp +:+ "_" +:+ unique_id +:+ "."
                   +:+ PyStr.lower ext in
       let loc := IMAGE_FOLDER rt +:+ "/" +:+ name in
       let fs' := <[loc := up_file img]> fs in
       let raw := makePrediction rt fs' loc in
       api_predict rt timestamp unique_id fs request
       = (Prediction (format_prediction (Some raw)) raw name
            (calculate_mock_confidence rt raw), fs')
       ∧ predict rt POST timestamp unique_id fs request
         = (Rendered (format_prediction (Some raw)) (Some name) (Some raw),
            [("Analysis completed successfully!", "success")], fs'))
  ∨ (∃ img ext,
       files_img request = Some img
       ∧ PyStr.after_last "." (up_filename img) = Some ext
       ∧ let name := "plant_" +:+ timestamp +:+ "_" +:+ unique_id +:+ "."
                     +:+ PyStr.lower ext in
         let loc := IMAGE_FOLDER rt +:+ "/" +:+ name in
         let fs' := match partial_write rt with
                    | Some part => <[loc := part]> fs
                    | None => fs
                    end in
         api_predict rt timestamp unique_id fs request
         = (Failure "Analysis failed" 500, fs')
         ∧ predict rt POST timestamp unique_id fs request = predict_failed fs')
  ∨ (∃ e status data msg,
       api_predict rt timestamp unique_id fs request = (Failure e status, fs)
       ∧ predict rt POST timestamp unique_id fs request
         = (Rendered data None None, [(msg, "error")], fs)).
Proof.
  unfold api_predict, predict, request_files, api_failed, predict_failed.
  destruct (content_length request >? MAX_CONTENT_LENGTH);
    [right; right; eauto 10 |].
  destruct (files_img request) as [img |]; [| right; right; eauto 10].
  destruct (decide (up_filename img = "")) as [He | He].
  { rewrite !bool_decide_eq_true_2 by done. right. right. eauto 10. }
  rewrite !bool_decide_eq_false_2 by done.
  destruct (allowed_file (up_filename img)) eqn:Ha; cbn [negb];
    [| right; right; eauto 10].
  destruct (allowed_file_ext _ Ha) as [ext Hext].
  unfold generate_unique_filename, save. rewrite Hext.
  rewrite (stored_location rt) by reflexivity.
  destruct (writable rt).
  - left. exists img, ext. by repeat split.
  - right. left. exists img, ext. by repeat split.
Qed.


(** X15. A prediction [api_predict] answers with is never the sentinel
    ["Error: Image file not found"]: the file was stored just before it is
    predicted. *)
Theorem api_predict_finds_upload rt (timestamp unique_id : string)
    (fs : gmap string File) (request : Request) :
  original_prediction_of (fst (api_predict rt timestamp unique_id fs request))
  ≠ Some "Error: Image file not found".
Proof.
  destruct (upload_outcome rt timestamp unique_id fs request)
    as [(img & ext & Hreq & Hext & -> & _)
       | [(img & ext & Hreq & Hext & -> & _)
         | (e & status & data & msg & -> & _)]]; cbn [fst snd]; [| done | done].
  simpl. intros [= Heq]. revert Heq.
  eapply makePrediction_found. apply lookup_insert_eq.
Qed.

(** X16. The page route and the JSON route agree.  On a POST they leave
    the same files.  When [api_predict] answers with a prediction,
    [predict] renders the same display string, image name and raw label
    and flashes ["Analysis completed successfully!"] in category
    [success], also when the raw label is a sentinel; when [api_predict]
    answers with a failure, [predict] renders a page without prediction
    and flashes one message in category [error].  On a GET, [predict]
    redirects to the index and writes nothing. *)
Theorem predict_agrees_with_api rt (timestamp unique_id : string)
    (fs : gmap string File) (request : Request) :
  snd (predict rt POST timestamp unique_id fs request)
  = snd (api_predict rt timestamp unique_id fs request)
  ∧ match fst (api_predict rt timestamp unique_id fs request) with
    | Prediction display raw name _ =>
        fst (predict rt POST timestamp unique_id fs request)
        = (Rendered display (Some name) (Some raw),
           [("Analysis completed successfully!", "success")])
    | Failure _ _ =>
        ∃ data msg,
          fst (predict rt POST timestamp unique_id fs request)
          = (Rendered data None None, [(msg, "error")])
    end
  ∧ predict rt GET timestamp unique_id fs request = (Redirected "index", [], fs).
Proof.
  destruct (upload_outcome rt timestamp unique_id fs request)
    as [(img & ext & Hreq & Hext & -> & ->)
       | [(img & ext & Hreq & Hext & -> & ->)
         | (e & status & data & msg & -> & ->)]]; cbn [fst snd].
  - by repeat split.
  - unfold predict_failed. cbn [fst snd]. split; [done |]. split; [eauto | done].
  - split; [done |]. split; [eauto | done].
Qed.

(** ** The shape of a display string *)

Lemma lower_char_isspace (c : ascii) :
  PyStr.isspace (PyStr.lower_char c) = PyStr.isspace c.
Proof. ascii_cases c. Qed.

Lemma upper_char_isspace (c : ascii) :
  PyStr.isspace (PyStr.upper_char c) = PyStr.isspace c.
Proof. ascii_cases c. Qed.

Lemma lower_upper_char (c : ascii) :
  PyStr.lower_char (PyStr.upper_char c) = PyStr.lower_char c.
Proof. ascii_cases c. Qed.

Lemma lower_no_space (s : string) : no_space (PyStr.lower s) = no_space s.
Proof.
  induction s as [| c s IH]; [done |]. simpl.
  by rewrite lower_char_isspace, IH.
Qed.

Lemma lower_capitalize (s : string) :
  PyStr.lower (PyStr.capitalize s) = PyStr.lower s.
Proof.
  destruct s as [| c s]; [done |]. simpl.
  by rewrite lower_upper_char, lower_idem.
Qed.

Lemma format_word_is_word (w : string) : is_word w → is_word (format_word w).
Proof.
  intros [Hne Hsp]. destruct w as [| c w]; [done |].
  unfold format_word. case_bool_decide.
  - split; [done |]. by rewrite lower_no_space.
  - split; [done |]. simpl in *.
    by rewrite upper_char_isspace, lower_no_space.
Qed.

Lemma format_word_idem (w : string) :
  format_word (format_word w) = format_word w.
Proof.
  unfold format_word at 2 3. case_bool_decide as Hm.
  - unfold format_word. rewrite lower_idem. by rewrite bool_decide_eq_true_2.
  - unfold format_word. rewrite lower_capitalize, capitalize_idem.
    by rewrite bool_decide_eq_false_2.
Qed.

Lemma split_are_words (s : string) : Forall is_word (PyStr.split s).
Proof.
  induction s as [| c s IH]; [by constructor |].
  destruct s as [| c' s'].
  - simpl. destruct (PyStr.isspace c) eqn:Hc; [by constructor |].
    constructor; [| constructor]. split; [done |]. simpl. by rewrite Hc.
  - rewrite split_cons_cons.
    destruct (PyStr.isspace c) eqn:Hc; [done |].
    assert (is_word (String c "")) as Hone
      by (split; [done | simpl; by rewrite Hc]).
    destruct (PyStr.isspace c'); [by constructor |].
    destruct (PyStr.split (String c' s')) as [| w ws];
      [constructor; [exact Hone | constructor] |].
    inversion IH as [| ? ? [Hw1 Hw2] Hws]; subst.
    constructor; [| done]. split; [done |]. simpl. by rewrite Hc, Hw2.
Qed.

Lemma split_word (w : string) : is_word w → PyStr.split w = [w].
Proof.
  intros [Hne Hsp]. induction w as [| c w IH]; [done |].
  simpl in Hsp. apply andb_prop in Hsp as [Hc Hsp].
  apply negb_true_iff in Hc.
  destruct w as [| c' w'].
  - simpl. by rewrite Hc.
  - rewrite split_cons_cons, Hc.
    assert (PyStr.isspace c' = false) as Hc'.
    { simpl in Hsp. apply andb_prop in Hsp as [H _]. by apply negb_true_iff. }
    rewrite Hc', IH; done.
Qed.

(** Splitting what was joined with single spaces gives the words back. *)
Lemma split_join (ws : list string) :
  Forall is_word ws → PyStr.split (PyStr.join " " ws) = ws.
Proof.
  induction 1 as [| w ws Hw Hws IH]; [done |].
  destruct ws as [| w' ws'].
  - by apply split_word.
  - change (PyStr.join " " (w :: w' :: ws'))
      with (w +:+ String " " (PyStr.join " " (w' :: ws'))).
    rewrite split_append_space by reflexivity.
    by rewrite IH, (split_word w Hw).
Qed.

Lemma format_words_are_words (s : string) : Forall is_word (format_words s).
Proof.
  unfold format_words. apply Forall_map.
  eapply Forall_impl; [apply split_are_words |].
  intros w. apply format_word_is_word.
Qed.

Lemma split_display (c : ascii) (p : string) :
  PyStr.split (format_prediction (Some (String c p))) = format_words (String c p).
Proof. apply split_join, format_words_are_words. Qed.

(** X17. A display string is normalised with respect to whitespace: it is
    its own words joined by single spaces, so it has no leading, trailing
    or repeated whitespace, whatever whitespace and underscores the input
    had; and for a non-empty input its words are exactly the formatted
    words of the input. *)
Theorem display_is_normalised (prediction : option string) :
  PyStr.join " " (PyStr.split (format_prediction prediction))
  = format_prediction prediction
  ∧ (∀ c p, prediction = Some (String c p) →
       PyStr.split (format_prediction prediction) = format_words (String c p)).
Proof.
  split.
  - destruct prediction as [[| c p] |]; [done | | done].
    by rewrite split_display.
  - intros c p ->. apply split_display.
Qed.

Lemma join_nonempty (w : string) (ws : list string) :
  w ≠ "" → ∃ c s, PyStr.join " " (w :: ws) = String c s.
Proof.
  intros Hw. destruct w as [| c w]; [done |].
  destruct ws as [| w' ws']; simpl; eauto.
Qed.

(** X18. On ASCII input, formatting is idempotent on every display string
    that has at least one word: formatting it again changes nothing.  The
    message for empty input is the exception: formatted again,
    ["Unknown condition"] becomes ["Unknown Condition"]. *)
Theorem format_prediction_idempotent (p : string) :
  PyStr.isascii p = true →
  format_words p ≠ [] →
  format_prediction (Some (format_prediction (Some p)))
  = format_prediction (Some p)
  ∧ format_prediction (Some (format_prediction None)) = "Unknown Condition".
Proof.
  intros _ Hne. split; [| reflexivity].
  destruct p as [| c p]; [done |].
  change (format_prediction (Some (String c p)))
    with (PyStr.join " " (format_words (String c p))).
  set (ws := format_words (String c p)) in *.
  assert (Forall is_word ws) as Hws by apply format_words_are_words.
  destruct ws as [| w ws'] eqn:Hw; [done |].
  assert (w ≠ "") as Hwne by (inversion Hws as [| ? ? [? _] _]; done).
  destruct (join_nonempty w ws' Hwne) as (c' & s' & Hj).
  rewrite Hj at 1.
  change (format_prediction (Some (String c' s')))
    with (PyStr.join " " (format_words (String c' s'))).
  rewrite <- Hj. f_equal.
  rewrite format_words_clean.
  2:{ apply join_no_underscore. rewrite <- Hw. apply format_words_no_underscore. }
  rewrite (split_join _ Hws). rewrite <- Hw. unfold ws, format_words.
  rewrite map_map. apply map_ext. intros x. apply format_word_idem.
Qed.

(** X18 at the label of a class. *)
Lemma format_prediction_idempotent_witness :
  format_prediction (Some (format_prediction (Some "Tomato___Late_blight")))
  = format_prediction (Some "Tomato___Late_blight")
  ∧ format_prediction (Some (format_prediction None)) = "Unknown Condition".
Proof.
  apply (format_prediction_idempotent "Tomato___Late_blight").
  - vm_compute. reflexivity.
  - vm_compute. discriminate.
Defined.

(** ** The deployment test *)

(** X19. With its five tests, [test_deployment] reports success exactly
    when at most one of them failed: four passed tests reach the threshold
    of 0.8 times the total, so the script exits with 0 although one
    endpoint is broken. *)
Theorem test_deployment_threshold (t1 t2 t3 t4 t5 : bool) :
  test_deployment [t1; t2; t3; t4; t5] = true
  ↔ (4 <= length (List.filter id [t1; t2; t3; t4; t5]))%nat.
Proof.
  destruct t1, t2, t3, t4, t5; vm_compute;
    split; first [done | lia | intros H; by repeat apply le_S_n in H].
Qed.
